(** * A size-classed page allocator: model of [Malloc.hpp] / [Malloc.cpp]

    The allocator is modelled over a byte-addressed memory.  Every object of
    the program ([MMapObject], [BigAlloc], [Arena]) is an overlay on mapped
    pages, so the model keeps the bytes of the address space, the list of
    live mappings, and runs each member function as a computation that may
    be killed by a signal (an access outside every mapping, or the
    [raise(SIGTRAP)] calls of the source).  The two objects with static
    storage, [myArenaStore] and [MMapObject::s_outstandingPages], are not in
    those pages: they are components of the state of their own, out of reach
    of a store into a mapped Region.  A statement that they are left alone
    is therefore made for pointers into mapped Regions. *)

From Stdlib Require Import ZArith Lia Bool List.
From stdpp Require Import gmap list.

Local Open Scope Z_scope.

(** ** Machine integers (LP64: [size_t] and pointers are 64 bits, [int] 32) *)

Definition wrap64 (z : Z) : Z := z mod 2 ^ 64.
Definition wrap32 (z : Z) : Z := z mod 2 ^ 32.

(** Value of a 32-bit pattern read as a (two's complement) [int]. *)
Definition to_int (u : Z) : Z := if u <? 2 ^ 31 then u else u - 2 ^ 32.

(** [constexpr size_t pageSize = 4096;] *)
Definition pageSize : Z := 4096.

Definition nullptr : Z := 0.

(** ** Object layout

    Offsets of the data members under the LP64 ABI.  [MMapObject] holds two
    [size_t]; [Arena] appends an [int] (padded to 8 bytes), a [size_t] and a
    [char*]; the zero-length array [m_data] of [BigAlloc] and of [Arena]
    starts where the members end. *)
Module Layout.
Definition m_mmapSize : Z := 0.
Definition m_arenaSize : Z := 8.
Definition sizeof_MMapObject : Z := 16.
Definition sizeof_BigAlloc : Z := 16.
Definition BigAlloc_m_data : Z := 16.
Definition item_count : Z := 16.
Definition size_remain : Z := 24.
Definition m_next : Z := 32.
Definition sizeof_Arena : Z := 40.
Definition Arena_m_data : Z := 40.
End Layout.

(** ** Process state *)

Inductive signal := SIGSEGV | SIGTRAP.

Record state := mkState {
  (** [MMapObject::s_outstandingPages] *)
  s_outstandingPages : Z;
  (** [myArenaStore.m_arenas], nine pointers *)
  m_arenas : list Z;
  (** contents of memory, little endian, one entry per byte that was written
      (a byte with no entry reads as zero) *)
  bytes : gmap Z Z;
  (** live mappings, each a half-open range [(lo, hi)] of addresses *)
  vmas : list (Z * Z);
  (** the addresses the kernel will choose for the coming [mmap] calls *)
  os_next : list Z
}.

Definition with_outstanding (n : Z) (st : state) : state :=
  mkState n (m_arenas st) (bytes st) (vmas st) (os_next st).
Definition with_arenas (t : list Z) (st : state) : state :=
  mkState (s_outstandingPages st) t (bytes st) (vmas st) (os_next st).
Definition with_bytes (m : gmap Z Z) (st : state) : state :=
  mkState (s_outstandingPages st) (m_arenas st) m (vmas st) (os_next st).
Definition with_vmas (vs : list (Z * Z)) (st : state) : state :=
  mkState (s_outstandingPages st) (m_arenas st) (bytes st) vs (os_next st).
Definition with_os_next (l : list Z) (st : state) : state :=
  mkState (s_outstandingPages st) (m_arenas st) (bytes st) (vmas st) l.

(** The process at start-up: the static [ArenaStore] is zero-initialised, the
    counter is 0 and nothing is mapped.  [os] scripts the kernel. *)
Definition initial (os : list Z) : state :=
  mkState 0 (replicate 9 nullptr) ∅ [] os.

(** ** Computations that a signal may kill *)

Inductive outcome (A : Type) : Type :=
| Ret (a : A) (st : state)
| Killed (sig : signal) (st : state).
Arguments Ret {A} a st.
Arguments Killed {A} sig st.

Definition M (A : Type) : Type := state -> outcome A.

Definition ret {A} (a : A) : M A := fun st => Ret a st.

Definition bind {A B} (c : M A) (k : A -> M B) : M B :=
  fun st =>
    match c st with
    | Ret a st' => k a st'
    | Killed sig st' => Killed sig st'
    end.

Notation "'let*' x ':=' c 'in' k" := (bind c (fun x => k))
  (at level 10, x name, c at level 100, k at level 200).

(** [raise(sig)]: neither signal is handled, so the process ends there. *)
Definition raise {A} (sig : signal) : M A := fun st => Killed sig st.

(** State in which a computation stopped, whether it returned or was killed. *)
Definition final_state {A} (o : outcome A) : state :=
  match o with Ret _ st => st | Killed _ st => st end.

Definition returned {A} (o : outcome A) : option A :=
  match o with Ret a _ => Some a | Killed _ _ => None end.

(** ** The operating system *)

(** [MAP_FAILED] is [(void* )-1]. *)
Definition MAP_FAILED : Z := 2 ^ 64 - 1.

(** User addresses lie in [[mmap_min_addr, TASK_SIZE)]: page 0 is never
    mapped, and user space ends one page below [2 ^ 47] (the kernel keeps
    that last page and everything above). *)
Definition mmap_min_addr : Z := pageSize.
Definition TASK_SIZE : Z := 2 ^ 47 - pageSize.

(** The kernel works on whole pages. *)
Definition page_align (len : Z) : Z := (len + pageSize - 1) / pageSize * pageSize.

Definition in_range (lo hi a : Z) : bool := (lo <=? a) && (a <? hi).

Definition mapped (vs : list (Z * Z)) (a : Z) : bool :=
  in_range mmap_min_addr TASK_SIZE a && existsb (fun v => in_range v.1 v.2 a) vs.

Definition overlaps (lo hi : Z) (v : Z * Z) : bool := (v.1 <? hi) && (lo <? v.2).

(** A placement the kernel may return: page aligned, inside user space,
    disjoint from every live mapping. *)
Definition placement_ok (vs : list (Z * Z)) (r len : Z) : bool :=
  (0 <? len) && (r mod pageSize =? 0) && (mmap_min_addr <=? r)
  && (r + len <=? TASK_SIZE) && forallb (fun v => negb (overlaps r (r + len) v)) vs.

(** [mmap(nullptr, size, PROT_READ | PROT_WRITE, MAP_ANONYMOUS | MAP_PRIVATE, 0, 0)].
    The next scripted address is used when it is a legal placement; a script
    that ran out, or an illegal placement, is an [ENOMEM].  Fresh pages are
    zero filled. *)
Definition mmap (size : Z) : M Z := fun st =>
  match os_next st with
  | [] => Ret MAP_FAILED st
  | r :: rest =>
      let len := page_align size in
      if placement_ok (vmas st) r len then
        Ret r (mkState (s_outstandingPages st) (m_arenas st)
                 (filter (fun kv : Z * Z => kv.1 < r \/ r + len <= kv.1) (bytes st))
                 ((r, r + len) :: vmas st) rest)
      else Ret MAP_FAILED (with_os_next rest st)
  end.

(** What is left of the mapping [v] once [[lo, hi)] is unmapped. *)
Definition cut (lo hi : Z) (v : Z * Z) : list (Z * Z) :=
  (if v.1 <? Z.min v.2 lo then [(v.1, Z.min v.2 lo)] else [])
  ++ (if Z.max v.1 hi <? v.2 then [(Z.max v.1 hi, v.2)] else []).

(** [munmap(addr, len)]: [EINVAL] for an address that is not a multiple of
    the page size, for a zero length and for a range leaving user space;
    otherwise every page of the range is unmapped. *)
Definition munmap (addr len : Z) : M Z := fun st =>
  let hi := addr + page_align len in
  if negb (addr mod pageSize =? 0) || (len =? 0) || (TASK_SIZE <? hi)
  then Ret (-1) st
  else Ret 0 (with_vmas (flat_map (cut addr hi) (vmas st)) st).

(** ** Memory accesses *)

Definition byte_at (m : gmap Z Z) (a : Z) : Z := default 0 (m !! a).

Fixpoint load_bytes (m : gmap Z Z) (a : Z) (w : nat) : Z :=
  match w with
  | O => 0
  | S w' => byte_at m a + 256 * load_bytes m (a + 1) w'
  end.

Fixpoint store_bytes (m : gmap Z Z) (a : Z) (w : nat) (v : Z) : gmap Z Z :=
  match w with
  | O => m
  | S w' => store_bytes (<[a := v mod 256]> m) (a + 1) w' (v / 256)
  end.

(** An access of [w] bytes at [a] needs its first and last byte mapped. *)
Definition accessible (st : state) (a : Z) (w : nat) : bool :=
  mapped (vmas st) a && mapped (vmas st) (a + Z.of_nat w - 1).

Definition load (w : nat) (a : Z) : M Z := fun st =>
  if accessible st a w then Ret (load_bytes (bytes st) a w) st
  else Killed SIGSEGV st.

Definition store (w : nat) (a v : Z) : M unit := fun st =>
  if accessible st a w then Ret tt (with_bytes (store_bytes (bytes st) a w v) st)
  else Killed SIGSEGV st.

(** Typed accesses to a data member at offset [off] of the object at [this]. *)
Definition load_size_t (this off : Z) : M Z := load 8 (wrap64 (this + off)).
Definition store_size_t (this off v : Z) : M unit := store 8 (wrap64 (this + off)) (wrap64 v).
Definition load_int (this off : Z) : M Z :=
  let* u := load 4 (wrap64 (this + off)) in ret (to_int u).
Definition store_int (this off v : Z) : M unit := store 4 (wrap64 (this + off)) (wrap32 v).

(** ** [MMapObject] *)

(** [s_outstandingPages++] and [s_outstandingPages--] on the atomic
    [size_t]; the second gives the value before the decrement. *)
Definition outstanding_incr : M unit := fun st =>
  Ret tt (with_outstanding (wrap64 (s_outstandingPages st + 1)) st).
Definition outstanding_post_decr : M Z := fun st =>
  Ret (s_outstandingPages st) (with_outstanding (wrap64 (s_outstandingPages st - 1)) st).

(** [static MMapObject* alloc(size_t size, size_t arenaSize)].  The counter
    is incremented first; the test after [mmap] reads an [int] through the
    pointer that [mmap] returned. *)
Definition MMapObject_alloc (size arenaSize : Z) : M Z :=
  let* _ := outstanding_incr in
  let* ptr := mmap size in
  let* v := load_int ptr 0 in
  if (v =? -1) || negb (Z.rem v 8 =? 0) then ret nullptr
  else
    let* _ := store_size_t ptr Layout.m_mmapSize size in
    let* _ := store_size_t ptr Layout.m_arenaSize arenaSize in
    ret ptr.

(** [size_t mmapSize()] and [size_t arenaSize()] *)
Definition mmapSize (this : Z) : M Z := load_size_t this Layout.m_mmapSize.
Definition arenaSize (this : Z) : M Z := load_size_t this Layout.m_arenaSize.

(** [static void dealloc(void* obj)] *)
Definition MMapObject_dealloc (obj : Z) : M unit :=
  let* old := outstanding_post_decr in
  let* _ := (if old =? 0 then raise SIGTRAP else ret tt) in
  let ptr := obj in
  let* len := mmapSize ptr in
  let* err := munmap ptr len in
  if err =? -1 then raise SIGTRAP else ret tt.

(** [static size_t outstandingPages()] *)
Definition outstandingPages (st : state) : Z := s_outstandingPages st.

(** ** [BigAlloc] *)

(** [static void* alloc(size_t size)] *)
Definition BigAlloc_alloc (size : Z) : M Z :=
  let* myBigAlloc := MMapObject_alloc size 0 in
  if (myBigAlloc =? nullptr) || negb (Layout.sizeof_BigAlloc mod 8 =? 0) then ret nullptr
  else ret (wrap64 (myBigAlloc + Layout.BigAlloc_m_data)).

(** ** [Arena] *)

(** [static Arena* create(uint32_t itemSize)] *)
Definition Arena_create (itemSize : Z) : M Z :=
  let* myArena := MMapObject_alloc pageSize (wrap32 itemSize) in
  if (myArena =? nullptr) || negb (Layout.sizeof_Arena mod 8 =? 0) then ret nullptr
  else
    let* _ := store_size_t myArena Layout.m_next (myArena + Layout.Arena_m_data) in
    let* _ := store_int myArena Layout.item_count 0 in
    let* _ := store_size_t myArena Layout.size_remain pageSize in
    ret myArena.

(** [bool full()] *)
Definition Arena_full (this : Z) : M bool :=
  let* a := arenaSize this in
  let* r := load_size_t this Layout.size_remain in
  if a >? r then ret true else ret false.

(** [void* alloc()] *)
Definition Arena_alloc (this : Z) : M Z :=
  let* f := Arena_full this in
  if f then ret nullptr
  else
    let* r := load_size_t this Layout.size_remain in
    let* a := arenaSize this in
    let* _ := store_size_t this Layout.size_remain (r - a) in
    let* c := load_int this Layout.item_count in
    let* _ := store_int this Layout.item_count (c + 1) in
    let* n := load_size_t this Layout.m_next in
    let* a' := arenaSize this in
    let result := wrap64 (n + a') in
    let* _ := store_size_t this Layout.m_next result in
    load_size_t this Layout.m_next.

(** [bool free()] *)
Definition Arena_free (this : Z) : M bool :=
  let* c := load_int this Layout.item_count in
  let* _ := (if c >? 0 then store_int this Layout.item_count (c - 1) else ret tt) in
  let* c' := load_int this Layout.item_count in
  if c' =? 0 then
    let* f := Arena_full this in
    if f then ret true else ret false
  else ret false.

(** [char* next()] *)
Definition Arena_next (this : Z) : M Z := load_size_t this Layout.m_next.

(** [k] successive calls of [alloc()] on one arena; the pointers obtained,
    in order. *)
Fixpoint Arena_alloc_many (this : Z) (k : nat) : M (list Z) :=
  match k with
  | O => ret []
  | S k' =>
      let* p := Arena_alloc this in
      let* ps := Arena_alloc_many this k' in
      ret (p :: ps)
  end.

(** ** [ArenaStore] *)

(** [while(bytes >>= 1) { i <<= 1; arena_index++; }] on a [size_t]: the
    shifted value is tested before each round; [width] bounds the number of
    rounds by the width of [size_t] (see [shift_loop_fuel]). *)
Fixpoint shift_loop (width : nat) (bytes i arena_index : Z) : Z * Z :=
  match width with
  | O => (i, arena_index)
  | S width' =>
      let bytes := Z.shiftr bytes 1 in
      if bytes =? 0 then (i, arena_index)
      else shift_loop width' bytes (wrap64 (Z.shiftl i 1)) (arena_index + 1)
  end.

(** The size-class computation of [ArenaStore::alloc] (the statements between
    the [bytes > 1024] test and the table lookup): the item size of the class
    and its index in [m_arenas]. *)
Definition classify (bytes : Z) : Z * Z :=
  if bytes <=? 8 then (8, 0)
  else
    let tmp := bytes in
    let '(i, arena_index) := shift_loop 64 bytes 1 0 in
    let bytes := if i <? tmp then wrap64 (Z.shiftl i 1) else i in
    let arena_index := if i <? tmp then arena_index + 1 else arena_index in
    (bytes, arena_index - 3).

(** [m_arenas[arena_index]], read and written; an index outside the array
    is an invalid access. *)
Definition get_arena (arena_index : Z) : M Z := fun st =>
  if 0 <=? arena_index then
    match m_arenas st !! Z.to_nat arena_index with
    | Some p => Ret p st
    | None => Killed SIGSEGV st
    end
  else Killed SIGSEGV st.

Definition set_arena (arena_index p : Z) : M unit := fun st =>
  if (0 <=? arena_index) && (arena_index <? Z.of_nat (length (m_arenas st))) then
    Ret tt (with_arenas (<[Z.to_nat arena_index := p]> (m_arenas st)) st)
  else Killed SIGSEGV st.

(** [void* alloc(size_t bytes)] *)
Definition ArenaStore_alloc (bytes : Z) : M Z :=
  if bytes >? 1024 then BigAlloc_alloc bytes
  else
    let '(bytes, arena_index) := classify bytes in
    let* cur := get_arena arena_index in
    let* _ := (if cur =? nullptr then
                 let* a := Arena_create bytes in set_arena arena_index a
               else ret tt) in
    let* this := get_arena arena_index in
    let* result := Arena_alloc this in
    let* _ := (if result =? nullptr then set_arena arena_index nullptr else ret tt) in
    ret result.

(** [void free(void* ptr)] *)
Definition ArenaStore_free (ptr : Z) : M unit :=
  let myMmap := ptr in
  let* a := arenaSize myMmap in
  if a =? 0 then MMapObject_dealloc myMmap
  else
    let myArena := myMmap in
    let* drained := Arena_free myArena in
    if drained then MMapObject_dealloc myArena else ret tt.

(** ** The two public functions of [Malloc.cpp] *)

Definition myMalloc (n : Z) : M Z := ArenaStore_alloc n.
Definition myFree (addr : Z) : M unit := ArenaStore_free addr.

(** ** Clients

    A client calls [myMalloc] and [myFree] and writes into its memory. *)
Inductive op :=
| Malloc (n : Z)
| Free (ptr : Z)
| Poke (addr byte : Z).

Definition step (o : op) : M unit :=
  match o with
  | Malloc n => let* _ := myMalloc n in ret tt
  | Free p => myFree p
  | Poke a b => store 1 a b
  end.

Fixpoint run (ops : list op) : M unit :=
  match ops with
  | [] => ret tt
  | o :: rest => let* _ := step o in run rest
  end.

(** [n] successive calls of [myMalloc size]; the pointers obtained, in order. *)
Fixpoint malloc_many (n : nat) (size : Z) : M (list Z) :=
  match n with
  | O => ret []
  | S n' => let* p := myMalloc size in let* ps := malloc_many n' size in ret (p :: ps)
  end.

(** The item sizes of the size classes, by index in [m_arenas], as the
    comment on [m_arenas] begins to list them: 0: 8 bytes, 1: 16 bytes,
    2: 32 bytes, ... *)
Definition class_size (arena_index : Z) : Z := 2 ^ (arena_index + 3).

(** * Vocabulary of the statements *)

(** What [classify] does on one request, as a boolean: the index is one of
    0..7, the item size is the class size of that index, it covers the
    request, half of it would not (unless it is the minimum, 8), and a
    request of exactly the item size falls in the same class. *)
Definition class_ok (n : Z) : bool :=
  let '(c, idx) := classify n in
  (0 <=? idx) && (idx <=? 7) && (c =? class_size idx) && (n <=? c)
  && ((c =? 8) || (c / 2 <? n))
  && (c <=? 1024) && (fst (classify c) =? c) && (snd (classify c) =? idx).

(** [keeps f c]: the component [f] of the state is the same when [c] ends,
    whether it returns or is killed. *)
Definition keeps {X A} (f : state -> X) (c : M A) : Prop :=
  forall st, f (final_state (c st)) = f st.

(** Components of the state that are neither the memory contents nor the
    counter of outstanding pages. *)
Class Frame {X} (f : state -> X) : Prop := {
  frame_bytes : forall m st, f (with_bytes m st) = f st;
  frame_outstanding : forall n st, f (with_outstanding n st) = f st
}.

(** The table has its nine entries and the ninth is null. *)
Definition table_ok (st : state) : Prop :=
  length (m_arenas st) = 9%nat /\ m_arenas st !! 8%nat = Some nullptr.

Definition safe {A} (c : M A) : Prop :=
  forall st, table_ok st -> table_ok (final_state (c st)).

(** [mmap] is about to fail: the kernel has no address to give, or the one
    it has is not a legal placement. *)
Definition mmap_fails (size : Z) (st : state) : bool :=
  match os_next st with
  | [] => true
  | r :: _ => negb (placement_ok (vmas st) r (page_align size))
  end.

(** The [size] bytes at [this] lie in one live mapping, inside user space. *)
Definition object_mapped (st : state) (this size : Z) : Prop :=
  exists lo hi,
    In (lo, hi) (vmas st) /\ mmap_min_addr <= lo /\ hi <= TASK_SIZE
    /\ lo <= this /\ this + size <= hi.

Record arena_members := mkArena {
  v_arenaSize : Z;
  v_item_count : Z;
  v_size_remain : Z;
  v_m_next : Z
}.

(** The members of the [Arena] at [this], as the memory holds them. *)
Definition arena_at (st : state) (this : Z) : arena_members :=
  mkArena (load_bytes (bytes st) (this + Layout.m_arenaSize) 8)
          (to_int (load_bytes (bytes st) (this + Layout.item_count) 4))
          (load_bytes (bytes st) (this + Layout.size_remain) 8)
          (load_bytes (bytes st) (this + Layout.m_next) 8).

(** The addresses [n + s], [n + 2 s], ..., [n + k s]. *)
Definition slots_after (n s : Z) (k : nat) : list Z :=
  (fun j => n + Z.of_nat j * s) <$> seq 1 k.

(** The state after one successful [myMalloc 2000] on a fresh process. *)
Definition after_malloc_2000 : state :=
  final_state (myMalloc 2000 (initial [65536])).

(** A fresh process after four requests of 1024 bytes: the arena of the
    class is full and still the current one. *)
Definition after_four_1024 : state :=
  final_state (malloc_many 4 1024 (initial [65536; 131072])).

(** [k] successive calls of [free()] on one arena; the results, in order. *)
Fixpoint Arena_free_many (this : Z) (k : nat) : M (list bool) :=
  match k with
  | O => ret []
  | S k' =>
      let* b := Arena_free this in
      let* bs := Arena_free_many this k' in
      ret (b :: bs)
  end.

(** [k] successive calls of [myFree ptr]. *)
Fixpoint free_many (k : nat) (ptr : Z) : M unit :=
  match k with
  | O => ret tt
  | S k' => let* _ := myFree ptr in free_many k' ptr
  end.

(** The [w] bytes at [a], read as one little-endian number. *)
Definition member_bytes (a : Z) (w : nat) (st : state) : Z :=
  load_bytes (bytes st) a w.

(** The sixteen bytes of the [MMapObject] members at [this]. *)
Definition header_bytes (this : Z) (st : state) : Z :=
  load_bytes (bytes st) this 16.

(** The process of [after_four_1024] after four calls of [myFree] with the
    address of the arena. *)
Definition after_drain : state :=
  final_state (free_many 4 65536 after_four_1024).

(** The process of [after_four_1024] after three calls of [myFree] with the
    address of the arena. *)
Definition after_three_frees : state :=
  final_state (free_many 3 65536 after_four_1024).

(** A fresh process after three requests of 1024 bytes: the arena of the
    class has room for one more. *)
Definition after_three_1024 : state :=
  final_state (malloc_many 3 1024 (initial [65536; 131072])).

(** * Properties *)

(** ** The shift loop stops by its own test *)

Lemma shiftr1_bound (w : nat) (b : Z) :
  0 <= b < 2 ^ Z.of_nat (S w) -> 0 <= Z.shiftr b 1 < 2 ^ Z.of_nat w.
Proof.
  intros Hb. rewrite Z.shiftr_div_pow2 by lia. change (2 ^ 1) with 2.
  rewrite Nat2Z.inj_succ, Z.pow_succ_r in Hb by lia.
  split; [apply Z.div_pos; lia | apply Z.div_lt_upper_bound; lia].
Qed.

(** A value below [2 ^ width] is shifted to zero within [width] rounds, so
    more rounds change nothing: for a [size_t], 64 rounds are all of them. *)
Lemma shift_loop_fuel (w : nat) :
  forall b i idx (k : nat),
    0 <= b < 2 ^ Z.of_nat w ->
    shift_loop (w + k) b i idx = shift_loop w b i idx.
Proof.
  induction w as [|w IH]; intros b i idx k Hb.
  - assert (b = 0) by (change (2 ^ Z.of_nat 0) with 1 in Hb; lia). subst b.
    destruct k; reflexivity.
  - cbn [Nat.add shift_loop]. destruct (Z.shiftr b 1 =? 0); [reflexivity|].
    apply IH. now apply shiftr1_bound.
Qed.

(** ** The size classes *)

Lemma class_ok_small (n : Z) : 0 <= n <= 1024 -> class_ok n = true.
Proof.
  intros Hn.
  assert (Hall : forallb class_ok (map Z.of_nat (seq 0 1025)) = true)
    by (vm_compute; reflexivity).
  rewrite forallb_forall in Hall. apply Hall.
  apply in_map_iff. exists (Z.to_nat n). split; [lia|].
  apply in_seq. lia.
Qed.

Lemma classify_index_range (bytes : Z) :
  bytes <= 1024 -> 0 <= snd (classify bytes) <= 7.
Proof.
  intros Hb. destruct (Z_le_gt_dec bytes 8) as [Hs|Hl].
  - unfold classify. apply Z.leb_le in Hs. rewrite Hs. simpl. lia.
  - pose proof (class_ok_small bytes ltac:(lia)) as H. unfold class_ok in H.
    destruct (classify bytes) as [c idx]. simpl.
    repeat (apply andb_prop in H; destruct H as [H ?]). lia.
Qed.

(** ** Frame properties *)

#[export] Instance m_arenas_frame : Frame m_arenas.
Proof. split; reflexivity. Qed.

#[export] Instance vmas_frame : Frame vmas.
Proof. split; reflexivity. Qed.

Create HintDb frame.

Ltac keeps_unfold :=
  unfold mmapSize, arenaSize; unfold load_size_t, store_size_t, load_int, store_int;
  cbv zeta; auto 20 with frame typeclass_instances.

Section Keeps.
Context {X : Type} (f : state -> X).

Lemma keeps_ret {A} (a : A) : keeps f (ret a).
Proof. intros st. reflexivity. Qed.

Lemma keeps_raise {A} sig : keeps f (@raise A sig).
Proof. intros st. reflexivity. Qed.

Lemma keeps_bind {A B} (c : M A) (k : A -> M B) :
  keeps f c -> (forall a, keeps f (k a)) -> keeps f (bind c k).
Proof.
  intros Hc Hk st. unfold bind. specialize (Hc st).
  destruct (c st) as [a st1|sig st1]; simpl in *; [|assumption].
  rewrite Hk. assumption.
Qed.

Lemma keeps_if {A} (b : bool) (c1 c2 : M A) :
  keeps f c1 -> keeps f c2 -> keeps f (if b then c1 else c2).
Proof. destruct b; auto. Qed.

Lemma keeps_load w a : keeps f (load w a).
Proof. intros st. unfold load. destruct (accessible st a w); reflexivity. Qed.

Context `{!Frame f}.

Lemma keeps_store w a v : keeps f (store w a v).
Proof.
  intros st. unfold store. destruct (accessible st a w); [|reflexivity].
  apply frame_bytes.
Qed.

Lemma keeps_outstanding_incr : keeps f outstanding_incr.
Proof. intros st. apply frame_outstanding. Qed.

Lemma keeps_outstanding_post_decr : keeps f outstanding_post_decr.
Proof. intros st. apply frame_outstanding. Qed.

Hint Resolve keeps_ret keeps_raise keeps_bind keeps_if keeps_load keeps_store
  keeps_outstanding_incr keeps_outstanding_post_decr : frame.

Lemma keeps_Arena_full this : keeps f (Arena_full this).
Proof. unfold Arena_full. keeps_unfold. Qed.

Hint Resolve keeps_Arena_full : frame.

Lemma keeps_Arena_alloc this : keeps f (Arena_alloc this).
Proof. unfold Arena_alloc. keeps_unfold. Qed.

Lemma keeps_Arena_free this : keeps f (Arena_free this).
Proof. unfold Arena_free. keeps_unfold. Qed.
End Keeps.

#[local] Hint Resolve keeps_ret keeps_raise keeps_bind keeps_if keeps_load keeps_store
  keeps_outstanding_incr keeps_outstanding_post_decr
  keeps_Arena_full keeps_Arena_alloc keeps_Arena_free : frame.

(** ** The table of current arenas *)

(** The system calls do not touch the table. *)
Lemma keeps_mmap size : keeps m_arenas (mmap size).
Proof.
  intros st. unfold mmap. destruct (os_next st) as [|r rest]; [reflexivity|].
  destruct (placement_ok _ _ _); reflexivity.
Qed.

Lemma keeps_munmap a len : keeps m_arenas (munmap a len).
Proof. intros st. unfold munmap. destruct (_ || _); reflexivity. Qed.

#[local] Hint Resolve keeps_mmap keeps_munmap : frame.

Lemma keeps_MMapObject_alloc size a : keeps m_arenas (MMapObject_alloc size a).
Proof. unfold MMapObject_alloc. keeps_unfold. Qed.

Lemma keeps_MMapObject_dealloc obj : keeps m_arenas (MMapObject_dealloc obj).
Proof. unfold MMapObject_dealloc. keeps_unfold. Qed.

#[local] Hint Resolve keeps_MMapObject_alloc keeps_MMapObject_dealloc : frame.

Lemma keeps_BigAlloc_alloc size : keeps m_arenas (BigAlloc_alloc size).
Proof. unfold BigAlloc_alloc. keeps_unfold. Qed.

Lemma keeps_Arena_create itemSize : keeps m_arenas (Arena_create itemSize).
Proof. unfold Arena_create. keeps_unfold. Qed.

#[local] Hint Resolve keeps_BigAlloc_alloc keeps_Arena_create : frame.

Lemma keeps_ArenaStore_free ptr : keeps m_arenas (ArenaStore_free ptr).
Proof. unfold ArenaStore_free. keeps_unfold. Qed.

Lemma keeps_safe {A} (c : M A) : keeps m_arenas c -> safe c.
Proof. intros Hc st Hst. unfold table_ok. rewrite Hc. exact Hst. Qed.

Lemma safe_bind {A B} (c : M A) (k : A -> M B) :
  safe c -> (forall a, safe (k a)) -> safe (bind c k).
Proof.
  intros Hc Hk st Hst. unfold bind. specialize (Hc st Hst).
  destruct (c st) as [a st1|sig st1]; simpl in *; [|assumption].
  now apply Hk.
Qed.

Lemma safe_if {A} (b : bool) (c1 c2 : M A) :
  safe c1 -> safe c2 -> safe (if b then c1 else c2).
Proof. destruct b; auto. Qed.

(** A write to one of the first eight entries keeps the ninth. *)
Lemma safe_set_arena idx p : 0 <= idx <= 7 -> safe (set_arena idx p).
Proof.
  intros Hidx st [Hlen H8]. unfold set_arena.
  destruct (_ && _); cbn [final_state with_arenas m_arenas]; [|split; assumption].
  unfold table_ok, with_arenas; cbn [m_arenas]. split.
  - now rewrite length_insert.
  - rewrite list_lookup_insert_ne by lia. assumption.
Qed.

Lemma safe_ArenaStore_alloc bytes : safe (ArenaStore_alloc bytes).
Proof.
  unfold ArenaStore_alloc. destruct (bytes >? 1024) eqn:Hbig.
  - apply keeps_safe. auto with frame typeclass_instances.
  - assert (Hidx := classify_index_range bytes ltac:(lia)).
    destruct (classify bytes) as [c idx]. simpl in Hidx.
    assert (Hget : safe (get_arena idx)).
    { apply keeps_safe. intros st. unfold get_arena.
      destruct (0 <=? idx); [|reflexivity].
      destruct (m_arenas st !! Z.to_nat idx); reflexivity. }
    apply safe_bind; [exact Hget|intros cur].
    apply safe_bind.
    { apply safe_if; [|apply keeps_safe; auto with frame typeclass_instances].
      apply safe_bind; [apply keeps_safe; auto with frame typeclass_instances|intros a].
      now apply safe_set_arena. }
    intros _. apply safe_bind; [exact Hget|intros this].
    apply safe_bind; [apply keeps_safe; auto with frame typeclass_instances|intros result].
    apply safe_bind; [|intros _; apply keeps_safe; auto with frame typeclass_instances].
    apply safe_if; [now apply safe_set_arena|apply keeps_safe; auto with frame typeclass_instances].
Qed.

Lemma safe_step o : safe (step o).
Proof.
  destruct o as [n|p|a b]; simpl.
  - apply safe_bind; [apply safe_ArenaStore_alloc|].
    intros _. apply keeps_safe, keeps_ret.
  - apply keeps_safe, keeps_ArenaStore_free.
  - apply keeps_safe, keeps_store, m_arenas_frame.
Qed.

Lemma safe_run ops : safe (run ops).
Proof.
  induction ops as [|o rest IH]; simpl.
  - apply keeps_safe, keeps_ret.
  - apply safe_bind; [apply safe_step | intros _; exact IH].
Qed.

(** C10: the index computed by the dispatcher for a request that stays on the
    arena path is one of 0..7, and whatever a client does (any sequence of
    [myMalloc], [myFree] and writes, under any behaviour of the kernel), the
    ninth entry of [m_arenas] is still null when the run ends or is killed. *)
Theorem ninth_entry_never_assigned (bytes : Z) (ops : list op) (os : list Z) :
  (bytes <= 1024 -> 0 <= snd (classify bytes) <= 7)
  /\ m_arenas (final_state (run ops (initial os))) !! 8%nat = Some nullptr.
Proof.
  split; [apply classify_index_range|].
  apply (safe_run ops (initial os)). split; reflexivity.
Qed.

Lemma ninth_entry_never_assigned_witness :
  1024 <= 1024
  /\ 0 <= snd (classify 1024) <= 7
  /\ m_arenas (final_state (run [Malloc 1024; Malloc 3; Free 65584; Malloc 5000]
                               (initial [65536; 131072; 262144])))
       !! 8%nat = Some nullptr.
Proof.
  destruct (ninth_entry_never_assigned 1024
              [Malloc 1024; Malloc 3; Free 65584; Malloc 5000]
              [65536; 131072; 262144]) as [Hidx Htab].
  split; [lia|]. split; [apply Hidx; lia | exact Htab].
Defined.

(** ** Routing of a request *)

Lemma class_size_minimal (idx n j : Z) :
  0 <= idx -> 0 <= j ->
  class_size idx = 8 \/ class_size idx / 2 < n ->
  8 <= 2 ^ j -> n <= 2 ^ j -> class_size idx <= 2 ^ j.
Proof.
  unfold class_size. intros Hidx Hj [H8|Hhalf] Hmin Hn; [lia|].
  replace (idx + 3) with (Z.succ (idx + 2)) in * by lia.
  rewrite Z.pow_succ_r in Hhalf by lia.
  replace (2 * 2 ^ (idx + 2) / 2) with (2 ^ (idx + 2)) in Hhalf
    by (symmetry; rewrite Z.mul_comm; apply Z.div_mul; lia).
  assert (idx + 2 < j) by (apply (Z.pow_lt_mono_r_iff 2); lia).
  apply Z.pow_le_mono_r; lia.
Qed.

(** A request on the arena path is served exactly as a request for the item
    size of its class. *)
Lemma myMalloc_class (n : Z) (st : state) :
  0 <= n <= 1024 -> myMalloc n st = myMalloc (fst (classify n)) st.
Proof.
  intros Hn. pose proof (class_ok_small n Hn) as H. unfold class_ok in H.
  unfold myMalloc, ArenaStore_alloc.
  destruct (classify n) as [c idx] eqn:Hc. cbn [fst].
  repeat (apply andb_prop in H; destruct H as [H ?]).
  replace (n >? 1024) with false by lia.
  replace (c >? 1024) with false by lia.
  destruct (classify c) as [c' idx'] eqn:Hc'. cbn [fst snd] in *.
  replace c' with c by lia. replace idx' with idx by lia. reflexivity.
Qed.


(** ** Accesses outside user space *)

Lemma not_mapped_outside (vs : list (Z * Z)) (a : Z) :
  in_range mmap_min_addr TASK_SIZE a = false -> mapped vs a = false.
Proof. unfold mapped. now intros ->. Qed.

Lemma load_outside w a st :
  in_range mmap_min_addr TASK_SIZE a = false -> load w a st = Killed SIGSEGV st.
Proof.
  intros Ha. unfold load, accessible. now rewrite (not_mapped_outside _ _ Ha).
Qed.

Lemma mmap_fails_MAP_FAILED size st :
  mmap_fails size st = true ->
  exists st', mmap size st = Ret MAP_FAILED st'
              /\ s_outstandingPages st' = s_outstandingPages st
              /\ vmas st' = vmas st /\ bytes st' = bytes st.
Proof.
  unfold mmap_fails, mmap. destruct (os_next st) as [|r rest].
  - intros _. exists st. auto.
  - intros H. apply negb_true_iff in H. rewrite H.
    exists (with_os_next rest st). auto.
Qed.

(** C8 (what the code does instead): [MMapObject::alloc] increments the
    counter before it calls [mmap], and tests the failure by reading through
    the returned pointer.  When the mapping fails the pointer is
    [MAP_FAILED], the read is an invalid access, and the process is killed
    with the counter one higher than before: no null result, and the counter
    is not unchanged. *)
Theorem MMapObject_alloc_mmap_failure (size arenaSize : Z) (st : state) :
  mmap_fails size st = true ->
  exists st',
    MMapObject_alloc size arenaSize st = Killed SIGSEGV st'
    /\ s_outstandingPages st' = wrap64 (s_outstandingPages st + 1)
    /\ vmas st' = vmas st.
Proof.
  intros Hfail. unfold MMapObject_alloc, bind at 1. unfold outstanding_incr.
  set (st1 := with_outstanding _ st).
  destruct (mmap_fails_MAP_FAILED size st1 Hfail) as (st2 & Hm & Hcnt & Hv & _).
  exists st2. unfold bind at 1. rewrite Hm.
  unfold bind at 1, load_int, bind at 1.
  rewrite load_outside by reflexivity.
  split; [reflexivity|]. split; [exact Hcnt | exact Hv].
Qed.

Lemma MMapObject_alloc_mmap_failure_witness :
  mmap_fails pageSize (initial []) = true
  /\ exists st',
       MMapObject_alloc pageSize 8 (initial []) = Killed SIGSEGV st'
       /\ s_outstandingPages st' = wrap64 (s_outstandingPages (initial []) + 1)
       /\ vmas st' = vmas (initial []).
Proof.
  split; [reflexivity|].
  apply (MMapObject_alloc_mmap_failure pageSize 8 (initial [])). reflexivity.
Defined.

(** C9 (what the code does instead): [myFree] passes a null pointer on to
    [ArenaStore::free], which reads [arenaSize()] through it, at address 8.
    Page 0 is never mapped, so in every state the call is an invalid access
    that kills the process; it is not a no-op. *)
Theorem myFree_nullptr_faults (st : state) :
  myFree nullptr st = Killed SIGSEGV st.
Proof.
  unfold myFree, ArenaStore_free, arenaSize, load_size_t, bind.
  now rewrite load_outside by reflexivity.
Qed.

(** ** Reading what was written *)

Lemma byte_at_insert_eq (m : gmap Z Z) a v : byte_at (<[a:=v]> m) a = v.
Proof. unfold byte_at. now rewrite lookup_insert_eq. Qed.

Lemma byte_at_insert_ne (m : gmap Z Z) a b v :
  a <> b -> byte_at (<[a:=v]> m) b = byte_at m b.
Proof. intros Hne. unfold byte_at. now rewrite lookup_insert_ne. Qed.

Lemma byte_at_store_other (w : nat) :
  forall (m : gmap Z Z) a v b,
    b < a \/ a + Z.of_nat w <= b ->
    byte_at (store_bytes m a w v) b = byte_at m b.
Proof.
  induction w as [|w IH]; intros m a v b Hb; [reflexivity|].
  cbn [store_bytes]. rewrite IH by lia. apply byte_at_insert_ne. lia.
Qed.

Lemma load_store_same (w : nat) :
  forall (m : gmap Z Z) a v,
    load_bytes (store_bytes m a w v) a w = v mod 256 ^ Z.of_nat w.
Proof.
  induction w as [|w IH]; intros m a v.
  - cbn. now rewrite Z.mod_1_r.
  - cbn [store_bytes load_bytes]. rewrite IH.
    rewrite byte_at_store_other by lia. rewrite byte_at_insert_eq.
    rewrite Nat2Z.inj_succ, Z.pow_succ_r by lia.
    rewrite (Z.rem_mul_r v 256 (256 ^ Z.of_nat w)) by lia. reflexivity.
Qed.

Lemma load_store_other (w' : nat) :
  forall (w : nat) (m : gmap Z Z) a v b,
    b + Z.of_nat w' <= a \/ a + Z.of_nat w <= b ->
    load_bytes (store_bytes m a w v) b w' = load_bytes m b w'.
Proof.
  induction w' as [|w' IH]; intros w m a v b Hb; [reflexivity|].
  cbn [load_bytes]. rewrite IH by lia.
  now rewrite byte_at_store_other by lia.
Qed.

(** Pages just mapped read as zero. *)
Lemma load_fresh (w : nat) :
  forall (m : gmap Z Z) lo hi a,
    lo <= a -> a + Z.of_nat w <= hi ->
    load_bytes (filter (fun kv : Z * Z => kv.1 < lo \/ hi <= kv.1) m) a w = 0.
Proof.
  induction w as [|w IH]; intros m lo hi a Hlo Hhi; [reflexivity|].
  cbn [load_bytes]. rewrite IH by lia.
  unfold byte_at.
  rewrite (proj2 (map_lookup_filter_None _ m a)); [reflexivity|].
  right. intros x _. simpl. lia.
Qed.

Lemma wrap64_small z : 0 <= z < 2 ^ 64 -> wrap64 z = z.
Proof. intros Hz. unfold wrap64. now apply Z.mod_small. Qed.

(** ** Objects inside a live mapping *)

Lemma mapped_in (vs : list (Z * Z)) lo hi a :
  In (lo, hi) vs -> mmap_min_addr <= lo -> hi <= TASK_SIZE ->
  lo <= a < hi -> mapped vs a = true.
Proof.
  intros Hin Hlo Hhi Ha. unfold mapped, in_range.
  apply andb_true_intro. split.
  - apply andb_true_intro. split; lia.
  - apply existsb_exists. exists (lo, hi). split; [exact Hin|].
    simpl. apply andb_true_intro. split; lia.
Qed.

Lemma object_accessible st this size off (w : nat) :
  object_mapped st this size ->
  0 <= off -> (0 < w)%nat -> off + Z.of_nat w <= size ->
  accessible st (this + off) w = true.
Proof.
  intros (lo & hi & Hin & Hlo & Hhi & Hthis & Hend) Hoff Hw Hfit.
  unfold accessible. apply andb_true_intro.
  split; apply (mapped_in _ lo hi); auto; lia.
Qed.

Lemma object_wrap64 st this size off :
  object_mapped st this size -> 0 <= off <= size ->
  wrap64 (this + off) = this + off.
Proof.
  intros (lo & hi & _ & Hlo & Hhi & Hthis & Hend) Hoff.
  apply wrap64_small. unfold mmap_min_addr, TASK_SIZE, pageSize in *. lia.
Qed.

Lemma object_mapped_same_vmas st st' this size :
  vmas st' = vmas st -> object_mapped st this size -> object_mapped st' this size.
Proof. unfold object_mapped. now intros ->. Qed.

Lemma load_ok w a st :
  accessible st a w = true -> load w a st = Ret (load_bytes (bytes st) a w) st.
Proof. unfold load. now intros ->. Qed.

Lemma store_ok w a v st :
  accessible st a w = true ->
  store w a v st = Ret tt (with_bytes (store_bytes (bytes st) a w v) st).
Proof. unfold store. now intros ->. Qed.

(** Loads and stores of the data members of an object that is mapped. *)
Lemma load_size_t_ok st this size off :
  object_mapped st this size -> 0 <= off -> off + 8 <= size ->
  load_size_t this off st = Ret (load_bytes (bytes st) (this + off) 8) st.
Proof.
  intros Hm Hoff Hfit. unfold load_size_t.
  rewrite (object_wrap64 st this size) by (auto; lia).
  apply load_ok. apply (object_accessible st this size); auto; lia.
Qed.

Lemma load_int_ok st this size off :
  object_mapped st this size -> 0 <= off -> off + 4 <= size ->
  load_int this off st = Ret (to_int (load_bytes (bytes st) (this + off) 4)) st.
Proof.
  intros Hm Hoff Hfit. unfold load_int, bind.
  rewrite (object_wrap64 st this size) by (auto; lia).
  rewrite load_ok; [reflexivity|].
  apply (object_accessible st this size); auto; lia.
Qed.

Lemma store_size_t_ok st this size off v :
  object_mapped st this size -> 0 <= off -> off + 8 <= size ->
  store_size_t this off v st
  = Ret tt (with_bytes (store_bytes (bytes st) (this + off) 8 (wrap64 v)) st).
Proof.
  intros Hm Hoff Hfit. unfold store_size_t.
  rewrite (object_wrap64 st this size) by (auto; lia).
  apply store_ok. apply (object_accessible st this size); auto; lia.
Qed.

Lemma store_int_ok st this size off v :
  object_mapped st this size -> 0 <= off -> off + 4 <= size ->
  store_int this off v st
  = Ret tt (with_bytes (store_bytes (bytes st) (this + off) 4 (wrap32 v)) st).
Proof.
  intros Hm Hoff Hfit. unfold store_int.
  rewrite (object_wrap64 st this size) by (auto; lia).
  apply store_ok. apply (object_accessible st this size); auto; lia.
Qed.

Lemma wrap64_idem z : wrap64 (wrap64 z) = wrap64 z.
Proof. unfold wrap64. apply Z.mod_mod. lia. Qed.

Lemma wrap64_fits z : wrap64 z mod 256 ^ Z.of_nat 8 = wrap64 z.
Proof. unfold wrap64. change (256 ^ Z.of_nat 8) with (2 ^ 64). apply Z.mod_mod. lia. Qed.

Lemma wrap32_fits z : wrap32 z mod 256 ^ Z.of_nat 4 = wrap32 z.
Proof. unfold wrap32. change (256 ^ Z.of_nat 4) with (2 ^ 32). apply Z.mod_mod. lia. Qed.

Lemma to_int_wrap32 z : - 2 ^ 31 <= z < 2 ^ 31 -> to_int (wrap32 z) = z.
Proof.
  intros Hz. unfold to_int, wrap32.
  destruct (Z_lt_ge_dec z 0) as [Hneg|Hpos].
  - replace (z mod 2 ^ 32) with (z + 2 ^ 32)
      by (apply (Z.mod_unique _ _ (-1)); lia).
    replace (z + 2 ^ 32 <? 2 ^ 31) with false by lia. lia.
  - rewrite Z.mod_small by lia.
    replace (z <? 2 ^ 31) with true by lia. reflexivity.
Qed.

Section Exec.
Context {B : Type} (st : state) (this size : Z).
Hypothesis Hm : object_mapped st this size.

Lemma bind_load_size_t off (k : Z -> M B) :
  0 <= off -> off + 8 <= size ->
  bind (load_size_t this off) k st = k (load_bytes (bytes st) (this + off) 8) st.
Proof.
  intros H0 H1. unfold bind. now rewrite (load_size_t_ok st this size).
Qed.

Lemma bind_load_int off (k : Z -> M B) :
  0 <= off -> off + 4 <= size ->
  bind (load_int this off) k st
  = k (to_int (load_bytes (bytes st) (this + off) 4)) st.
Proof.
  intros H0 H1. unfold bind. now rewrite (load_int_ok st this size).
Qed.

Lemma bind_store_size_t off v (k : unit -> M B) :
  0 <= off -> off + 8 <= size ->
  bind (store_size_t this off v) k st
  = k tt (with_bytes (store_bytes (bytes st) (this + off) 8 (wrap64 v)) st).
Proof.
  intros H0 H1. unfold bind. now rewrite (store_size_t_ok st this size).
Qed.

Lemma bind_store_int off v (k : unit -> M B) :
  0 <= off -> off + 4 <= size ->
  bind (store_int this off v) k st
  = k tt (with_bytes (store_bytes (bytes st) (this + off) 4 (wrap32 v)) st).
Proof.
  intros H0 H1. unfold bind. now rewrite (store_int_ok st this size).
Qed.
End Exec.

Lemma bind_ret {A B} (a : A) (k : A -> M B) st : bind (ret a) k st = k a st.
Proof. reflexivity. Qed.

(** Runs the accesses to the members of the object at [this], of [sz] bytes,
    known to be mapped by [Hm]. *)
Ltac exec Hm sz :=
  repeat (cbv beta;
    match goal with
    | |- context [bind (load_size_t ?t ?o) ?k ?s] =>
        rewrite (bind_load_size_t s t sz Hm o k) by (unfold Layout.m_mmapSize,
          Layout.m_arenaSize, Layout.size_remain, Layout.m_next, Layout.sizeof_Arena; lia)
    | |- context [bind (load_int ?t ?o) ?k ?s] =>
        rewrite (bind_load_int s t sz Hm o k) by (unfold Layout.item_count,
          Layout.sizeof_Arena; lia)
    | |- context [bind (store_size_t ?t ?o ?v) ?k ?s] =>
        rewrite (bind_store_size_t s t sz Hm o v k) by (unfold Layout.m_mmapSize,
          Layout.m_arenaSize, Layout.size_remain, Layout.m_next, Layout.sizeof_Arena; lia)
    | |- context [bind (store_int ?t ?o ?v) ?k ?s] =>
        rewrite (bind_store_int s t sz Hm o v k) by (unfold Layout.item_count,
          Layout.sizeof_Arena; lia)
    | |- context [bind (ret ?a) ?k ?s] => rewrite (bind_ret a k s)
    | |- context [load_size_t ?t ?o ?s] =>
        rewrite (load_size_t_ok s t sz o Hm) by (unfold Layout.m_mmapSize,
          Layout.m_arenaSize, Layout.size_remain, Layout.m_next, Layout.sizeof_Arena; lia)
    end).

(** Simplifies reads of members after writes of members. *)
Ltac mem_simpl :=
  cbn [bytes with_bytes];
  repeat first
    [ rewrite load_store_same
    | rewrite load_store_other by
        (unfold Layout.m_mmapSize, Layout.m_arenaSize, Layout.item_count,
          Layout.size_remain, Layout.m_next; lia) ];
  rewrite ?wrap64_fits, ?wrap32_fits.

(** ** The members of an [Arena] *)

Lemma Arena_full_spec st this :
  object_mapped st this Layout.sizeof_Arena ->
  Arena_full this st
  = Ret (v_arenaSize (arena_at st this) >? v_size_remain (arena_at st this)) st.
Proof.
  intros Hm. unfold Arena_full, arenaSize.
  exec Hm Layout.sizeof_Arena.
  unfold arena_at; cbn [v_arenaSize v_size_remain].
  destruct (_ >? _); reflexivity.
Qed.

(** [Arena::alloc] on an arena that is full. *)
Lemma Arena_alloc_full st this :
  object_mapped st this Layout.sizeof_Arena ->
  v_arenaSize (arena_at st this) > v_size_remain (arena_at st this) ->
  Arena_alloc this st = Ret nullptr st.
Proof.
  intros Hm Hfull. unfold Arena_alloc. unfold bind at 1.
  rewrite (Arena_full_spec st this Hm).
  replace (_ >? _) with true by lia. reflexivity.
Qed.

(** [Arena::alloc] on an arena that is not full: the pointer returned is
    [m_next] after it was advanced. *)
Lemma Arena_alloc_spec st this :
  object_mapped st this Layout.sizeof_Arena ->
  let v := arena_at st this in
  v_arenaSize v <= v_size_remain v ->
  - 2 ^ 31 <= v_item_count v + 1 < 2 ^ 31 ->
  exists st',
    Arena_alloc this st = Ret (wrap64 (v_m_next v + v_arenaSize v)) st'
    /\ arena_at st' this
       = mkArena (v_arenaSize v) (v_item_count v + 1)
                 (wrap64 (v_size_remain v - v_arenaSize v))
                 (wrap64 (v_m_next v + v_arenaSize v))
    /\ vmas st' = vmas st /\ m_arenas st' = m_arenas st
    /\ s_outstandingPages st' = s_outstandingPages st /\ os_next st' = os_next st.
Proof.
  intros Hm v Hroom Hcount. unfold Arena_alloc. unfold bind at 1.
  rewrite (Arena_full_spec st this Hm). fold v.
  replace (_ >? _) with false by lia.
  unfold arenaSize. exec Hm Layout.sizeof_Arena.
  eexists. split.
  - mem_simpl. rewrite wrap64_idem. reflexivity.
  - split; [|repeat split].
    unfold arena_at. mem_simpl. rewrite ?wrap64_idem.
    rewrite to_int_wrap32 by exact Hcount. reflexivity.
Qed.

(** ** A mapping that succeeds *)

Lemma placement_ok_inv vs r len :
  placement_ok vs r len = true ->
  0 < len /\ r mod pageSize = 0 /\ mmap_min_addr <= r /\ r + len <= TASK_SIZE.
Proof.
  unfold placement_ok. intros H.
  repeat (apply andb_prop in H; destruct H as [H ?]). lia.
Qed.

Lemma page_align_covers size :
  0 < page_align size -> pageSize <= page_align size /\ size <= page_align size.
Proof.
  unfold page_align, pageSize. intros Hpos.
  pose proof (Z.div_mod (size + 4096 - 1) 4096 ltac:(lia)) as Hdiv.
  pose proof (Z.mod_pos_bound (size + 4096 - 1) 4096 ltac:(lia)) as Hmod.
  lia.
Qed.

(** [MMapObject::alloc] when the kernel places the mapping at [r]. *)
Lemma MMapObject_alloc_spec st size arenaSize r rest :
  os_next st = r :: rest ->
  placement_ok (vmas st) r (page_align size) = true ->
  exists st',
    MMapObject_alloc size arenaSize st = Ret r st'
    /\ vmas st' = (r, r + page_align size) :: vmas st
    /\ os_next st' = rest
    /\ m_arenas st' = m_arenas st
    /\ s_outstandingPages st' = wrap64 (s_outstandingPages st + 1)
    /\ load_bytes (bytes st') (r + Layout.m_mmapSize) 8 = wrap64 size
    /\ load_bytes (bytes st') (r + Layout.m_arenaSize) 8 = wrap64 arenaSize
    /\ (forall a (w : nat),
          r + Layout.sizeof_MMapObject <= a -> a + Z.of_nat w <= r + page_align size ->
          load_bytes (bytes st') a w = 0).
Proof.
  intros Hos Hok.
  destruct (placement_ok_inv _ _ _ Hok) as (Hlen & Halign & Hmin & Hmax).
  destruct (page_align_covers size Hlen) as [Hpage _]. unfold pageSize in Hpage.
  unfold MMapObject_alloc. unfold bind at 1, outstanding_incr.
  unfold bind at 1, mmap. cbn [os_next vmas with_outstanding].
  rewrite Hos, Hok.
  set (st1 := mkState _ _ _ _ _).
  assert (Hm : object_mapped st1 r (page_align size)).
  { exists r, (r + page_align size). cbn. repeat split; auto; lia. }
  exec Hm (page_align size).
  replace (load_bytes (bytes st1) (r + 0) 4) with 0
    by (symmetry; apply load_fresh; lia).
  change (to_int 0) with 0.
  change ((0 =? -1) || negb (Z.rem 0 8 =? 0)) with false. cbv iota.
  exec Hm (page_align size).
  eexists. split; [reflexivity|].
  repeat split.
  - mem_simpl. reflexivity.
  - mem_simpl. reflexivity.
  - intros a w Ha Hw. unfold Layout.sizeof_MMapObject in Ha. mem_simpl.
    apply load_fresh; lia.
Qed.

(** [Arena::create] when the kernel places the page at [r]: the members as
    the function leaves them. *)
Lemma Arena_create_spec st itemSize r rest :
  os_next st = r :: rest ->
  placement_ok (vmas st) r pageSize = true ->
  0 <= itemSize < 2 ^ 32 ->
  exists st',
    Arena_create itemSize st = Ret r st'
    /\ object_mapped st' r pageSize
    /\ arena_at st' r = mkArena itemSize 0 pageSize (r + Layout.Arena_m_data)
    /\ load_bytes (bytes st') (r + Layout.m_mmapSize) 8 = pageSize
    /\ vmas st' = (r, r + pageSize) :: vmas st
    /\ os_next st' = rest
    /\ m_arenas st' = m_arenas st
    /\ s_outstandingPages st' = wrap64 (s_outstandingPages st + 1).
Proof.
  intros Hos Hok Hsize.
  destruct (placement_ok_inv _ _ _ Hok) as (_ & _ & Hmin & Hmax).
  unfold mmap_min_addr, TASK_SIZE, pageSize in Hmin, Hmax.
  destruct (MMapObject_alloc_spec st pageSize (wrap32 itemSize) r rest Hos Hok)
    as (st1 & Hrun & Hvmas & Hnext & Htab & Hcnt & Hsz & Hasz & _).
  change (page_align pageSize) with pageSize in Hvmas.
  assert (Hm : object_mapped st1 r pageSize).
  { exists r, (r + pageSize). rewrite Hvmas.
    unfold mmap_min_addr, TASK_SIZE, pageSize. repeat split; [now left|lia..]. }
  unfold Arena_create. unfold bind at 1. rewrite Hrun.
  replace (r =? nullptr) with false by (unfold nullptr; lia).
  change (false || negb (Layout.sizeof_Arena mod 8 =? 0)) with false. cbv iota.
  assert (Hm40 : object_mapped st1 r Layout.sizeof_Arena).
  { destruct Hm as (lo & hi & ? & ? & ? & ? & ?). exists lo, hi.
    unfold Layout.sizeof_Arena, pageSize in *. repeat split; auto; lia. }
  exec Hm40 Layout.sizeof_Arena.
  eexists. split; [reflexivity|].
  split; [exact Hm|]. split; [|split; [|repeat split; assumption]].
  - unfold arena_at. mem_simpl. rewrite Hasz.
    rewrite (wrap64_small (wrap32 itemSize))
      by (unfold wrap32; rewrite Z.mod_small; lia).
    unfold wrap32 at 1. rewrite Z.mod_small by lia.
    change (to_int (wrap32 0)) with 0.
    rewrite (wrap64_small (r + Layout.Arena_m_data)) by (unfold Layout.Arena_m_data; lia).
    reflexivity.
  - mem_simpl. rewrite Hsz. reflexivity.
Qed.

(** ** Successive allocations from one arena *)

Lemma slots_after_S n s k :
  slots_after n s (S k) = (n + s) :: slots_after (n + s) s k.
Proof.
  unfold slots_after. cbn [seq fmap list_fmap]. f_equal; [lia|].
  rewrite <- fmap_S_seq, <- list_fmap_compose. apply list_fmap_ext.
  intros _ j _. simpl. lia.
Qed.

Lemma slots_after_lookup n s (k j : nat) :
  (j < k)%nat -> slots_after n s k !! j = Some (n + (Z.of_nat j + 1) * s).
Proof.
  intros Hj. unfold slots_after.
  rewrite list_lookup_fmap, lookup_seq_lt by exact Hj. simpl. f_equal. lia.
Qed.

Lemma slots_after_length n s k : length (slots_after n s k) = k.
Proof. unfold slots_after. now rewrite length_fmap, length_seq. Qed.

Lemma Arena_alloc_many_app this k1 :
  forall k2 st,
    Arena_alloc_many this (k1 + k2) st
    = (let* l1 := Arena_alloc_many this k1 in
       let* l2 := Arena_alloc_many this k2 in
       ret (l1 ++ l2)) st.
Proof.
  induction k1 as [|k1 IH]; intros k2 st.
  - cbn [Nat.add Arena_alloc_many]. rewrite bind_ret. unfold bind, ret.
    destruct (Arena_alloc_many this k2 st); reflexivity.
  - cbn [Nat.add Arena_alloc_many]. unfold bind, ret in *.
    destruct (Arena_alloc this st) as [p st1|sig st1]; [|reflexivity].
    rewrite IH.
    destruct (Arena_alloc_many this k1 st1) as [l1 st2|sig st2]; [|reflexivity].
    destruct (Arena_alloc_many this k2 st2); reflexivity.
Qed.

(** As long as [size_remain] covers them, [k] calls of [alloc()] return the
    [k] addresses that follow [m_next] at distance [arenaSize]. *)
Lemma Arena_alloc_many_spec this (k : nat) :
  forall st s c rem n,
    object_mapped st this Layout.sizeof_Arena ->
    arena_at st this = mkArena s c rem n ->
    0 < s -> Z.of_nat k * s <= rem < 2 ^ 64 ->
    0 <= c -> c + Z.of_nat k < 2 ^ 31 ->
    0 <= n -> n + Z.of_nat k * s < 2 ^ 64 ->
    exists st',
      Arena_alloc_many this k st = Ret (slots_after n s k) st'
      /\ arena_at st' this
         = mkArena s (c + Z.of_nat k) (rem - Z.of_nat k * s) (n + Z.of_nat k * s)
      /\ vmas st' = vmas st /\ m_arenas st' = m_arenas st
      /\ s_outstandingPages st' = s_outstandingPages st /\ os_next st' = os_next st.
Proof.
  induction k as [|k IH]; intros st s c rem n Hm Hat Hs Hrem Hc Hck Hn Hnk.
  - exists st. cbn [Arena_alloc_many]. rewrite Hat.
    repeat split. f_equal; lia.
  - destruct (Arena_alloc_spec st this Hm) as (st1 & Hrun & Hat1 & Hv & Ht & Ho & Hos);
      rewrite Hat in *; cbn [v_arenaSize v_size_remain v_item_count v_m_next] in *;
      try lia.
    rewrite (wrap64_small (rem - s)), (wrap64_small (n + s)) in Hat1 by nia.
    rewrite wrap64_small in Hrun by nia.
    destruct (IH st1 s (c + 1) (rem - s) (n + s)) as (st2 & Hrun2 & Hat2 & Hv2 & Ht2 & Ho2 & Hos2);
      try assumption; try nia.
    { now apply (object_mapped_same_vmas st). }
    exists st2. cbn [Arena_alloc_many]. unfold bind at 1. rewrite Hrun.
    unfold bind at 1. rewrite Hrun2. rewrite slots_after_S.
    split; [reflexivity|]. split; [|repeat split; congruence].
    rewrite Hat2. f_equal; lia.
Qed.

(** ** A fresh arena *)

(** What a fresh arena gives out: [size_remain] starts at [pageSize], the
    first [pageSize / itemSize] calls of [alloc()] return the addresses that
    follow the data area at distance [itemSize], and the next call returns
    null. *)
Lemma fresh_arena_run st itemSize r rest :
  os_next st = r :: rest ->
  placement_ok (vmas st) r pageSize = true ->
  0 < itemSize < 2 ^ 32 ->
  exists st1,
    Arena_create itemSize st = Ret r st1
    /\ v_size_remain (arena_at st1 r) = pageSize
    /\ vmas st1 = (r, r + pageSize) :: vmas st
    /\ (forall k : nat,
          Z.of_nat k * itemSize <= pageSize ->
          exists st2,
            Arena_alloc_many r k st1
            = Ret (slots_after (r + Layout.Arena_m_data) itemSize k) st2
            /\ object_mapped st2 r Layout.sizeof_Arena
            /\ arena_at st2 r
               = mkArena itemSize (Z.of_nat k) (pageSize - Z.of_nat k * itemSize)
                         (r + Layout.Arena_m_data + Z.of_nat k * itemSize)).
Proof.
  intros Hos Hok Hsize.
  destruct (placement_ok_inv _ _ _ Hok) as (_ & _ & Hmin & Hmax).
  unfold mmap_min_addr, TASK_SIZE, pageSize in Hmin, Hmax.
  destruct (Arena_create_spec st itemSize r rest Hos Hok ltac:(lia))
    as (st1 & Hrun & Hm & Hat & _ & Hv & _).
  assert (Hm40 : object_mapped st1 r Layout.sizeof_Arena).
  { destruct Hm as (lo & hi & ? & ? & ? & ? & ?). exists lo, hi.
    unfold Layout.sizeof_Arena, pageSize in *. repeat split; auto; lia. }
  exists st1. split; [exact Hrun|]. split; [now rewrite Hat|]. split; [exact Hv|].
  intros k Hk. unfold pageSize in Hk.
  assert (Hk' : Z.of_nat k <= 4096) by nia.
  destruct (Arena_alloc_many_spec r k st1 itemSize 0 pageSize (r + Layout.Arena_m_data)
              Hm40 Hat) as (st2 & Hrun2 & Hat2 & Hv2 & _);
    unfold pageSize, Layout.Arena_m_data; try lia.
  exists st2. split; [exact Hrun2|].
  split; [now apply (object_mapped_same_vmas st1)|].
  rewrite Hat2. reflexivity.
Qed.

(** C1 (what the code does instead): [Arena::create] sets [size_remain] to
    the raw [pageSize], not to [pageSize - sizeof(Arena)].  So a fresh arena
    gives out [pageSize / itemSize] slots before [alloc()] returns null (512
    for 8-byte items, where [(pageSize - sizeof(Arena)) / 8] is 507), and
    whenever an item fits in a page the last slot handed out ends beyond the
    end of the one mapped page. *)
Theorem Arena_create_capacity (st : state) (itemSize r : Z) (rest : list Z) :
  os_next st = r :: rest ->
  placement_ok (vmas st) r pageSize = true ->
  0 < itemSize < 2 ^ 32 ->
  let k := Z.to_nat (pageSize / itemSize) in
  exists st1 st2,
    Arena_create itemSize st = Ret r st1
    /\ v_size_remain (arena_at st1 r) = pageSize
    /\ vmas st1 = (r, r + pageSize) :: vmas st
    /\ Arena_alloc_many r (k + 1) st1
       = Ret (slots_after (r + Layout.Arena_m_data) itemSize k ++ [nullptr]) st2
    /\ (forall p, p ∈ slots_after (r + Layout.Arena_m_data) itemSize k -> p <> nullptr)
    /\ (itemSize <= pageSize ->
        r + pageSize < (r + Layout.Arena_m_data + Z.of_nat k * itemSize) + itemSize).
Proof.
  intros Hos Hok Hsize k.
  destruct (placement_ok_inv _ _ _ Hok) as (_ & _ & Hmin & _).
  unfold mmap_min_addr in Hmin.
  destruct (fresh_arena_run st itemSize r rest Hos Hok Hsize)
    as (st1 & Hrun & Hrem & Hv & Hmany).
  assert (Hk : Z.of_nat k = pageSize / itemSize).
  { unfold k. apply Z2Nat.id. apply Z.div_pos; unfold pageSize; lia. }
  pose proof (Z.div_mod pageSize itemSize ltac:(lia)) as Hdiv.
  pose proof (Z.mod_pos_bound pageSize itemSize ltac:(lia)) as Hmod.
  destruct (Hmany k ltac:(nia)) as (st2 & Hrun2 & Hm2 & Hat2).
  exists st1, st2. split; [exact Hrun|]. split; [exact Hrem|]. split; [exact Hv|].
  split; [|split].
  - rewrite Arena_alloc_many_app. unfold bind at 1. rewrite Hrun2.
    cbn [Arena_alloc_many]. unfold bind at 1 2.
    rewrite (Arena_alloc_full st2 r Hm2)
      by (rewrite Hat2; cbn [v_arenaSize v_size_remain]; nia).
    reflexivity.
  - intros p Hp. apply list_elem_of_lookup in Hp as [j Hj].
    assert (Hlt : (j < k)%nat).
    { apply lookup_lt_Some in Hj. now rewrite slots_after_length in Hj. }
    rewrite slots_after_lookup in Hj by exact Hlt. injection Hj as <-.
    unfold nullptr, Layout.Arena_m_data, pageSize in *. nia.
  - intros _. unfold Layout.Arena_m_data. nia.
Qed.

Lemma Arena_create_capacity_witness :
  exists st1 st2,
    Arena_create 1024 (initial [65536]) = Ret 65536 st1
    /\ v_size_remain (arena_at st1 65536) = 4096
    /\ Arena_alloc_many 65536 5 st1 = Ret [66600; 67624; 68648; 69672; 0] st2
    /\ 69672 <> nullptr
    /\ (pageSize - Layout.sizeof_Arena) / 1024 = 3
    /\ 65536 + pageSize < 69672 + 1024.
Proof.
  destruct (Arena_create_capacity (initial [65536]) 1024 65536 [])
    as (st1 & st2 & Hrun & Hrem & _ & Hmany & Hnn & Hlast);
    [reflexivity | reflexivity | lia |].
  exists st1, st2. split; [exact Hrun|]. split; [exact Hrem|].
  split; [exact Hmany|].
  split; [apply Hnn; apply list_elem_of_lookup; exists 3%nat; reflexivity|].
  split; [reflexivity|]. apply Hlast. unfold pageSize. lia.
Defined.

(** C3 (what the code does instead): [Arena::alloc] advances [m_next] by
    the item size and returns the advanced value.  On a fresh arena the
    first call returns the address [itemSize] bytes into the data area, not
    its first byte, and the [k]-th successful call returns offset
    [k * itemSize], not [(k - 1) * itemSize]. *)
Theorem Arena_alloc_skips_first_slot
    (st : state) (itemSize r : Z) (rest : list Z) (k : nat) :
  os_next st = r :: rest ->
  placement_ok (vmas st) r pageSize = true ->
  0 < itemSize < 2 ^ 32 ->
  (1 <= k)%nat -> Z.of_nat k * itemSize <= pageSize ->
  exists st1 st2 ps,
    Arena_create itemSize st = Ret r st1
    /\ v_m_next (arena_at st1 r) = r + Layout.Arena_m_data
    /\ Arena_alloc_many r k st1 = Ret ps st2
    /\ ps !! 0%nat = Some (r + Layout.Arena_m_data + itemSize)
    /\ ps !! (k - 1)%nat = Some (r + Layout.Arena_m_data + Z.of_nat k * itemSize).
Proof.
  intros Hos Hok Hsize Hk1 Hk.
  destruct (Arena_create_spec st itemSize r rest Hos Hok ltac:(lia))
    as (st1' & Hrun' & _ & Hat & _).
  destruct (fresh_arena_run st itemSize r rest Hos Hok Hsize)
    as (st1 & Hrun & _ & _ & Hmany).
  assert (st1' = st1) by congruence. subst st1'.
  destruct (Hmany k Hk) as (st2 & Hrun2 & _).
  exists st1, st2, (slots_after (r + Layout.Arena_m_data) itemSize k).
  split; [exact Hrun|]. split; [now rewrite Hat|]. split; [exact Hrun2|].
  split.
  - rewrite slots_after_lookup by lia. f_equal. lia.
  - rewrite slots_after_lookup by lia.
    replace (Z.of_nat (k - 1) + 1) with (Z.of_nat k) by lia. reflexivity.
Qed.

Lemma Arena_alloc_skips_first_slot_witness :
  exists st1 st2 ps,
    Arena_create 8 (initial [65536]) = Ret 65536 st1
    /\ v_m_next (arena_at st1 65536) = 65536 + 40
    /\ Arena_alloc_many 65536 2 st1 = Ret ps st2
    /\ ps !! 0%nat = Some (65536 + 40 + 8)
    /\ ps !! 1%nat = Some (65536 + 40 + 16).
Proof.
  destruct (Arena_alloc_skips_first_slot (initial [65536]) 8 65536 [] 2)
    as (st1 & st2 & ps & H);
    [reflexivity | reflexivity | lia | lia | unfold pageSize; lia |].
  exists st1, st2, ps. exact H.
Defined.

(** ** Release through an interior pointer *)

Lemma munmap_unaligned addr len st :
  addr mod pageSize <> 0 -> munmap addr len st = Ret (-1) st.
Proof.
  intros Hun. unfold munmap.
  replace (addr mod pageSize =? 0) with false by lia. reflexivity.
Qed.

(** [MMapObject::dealloc] passes its argument to [munmap] as it is: with a
    pointer that is not page aligned nothing is ever unmapped. *)
Lemma keeps_vmas_dealloc_unaligned obj :
  obj mod pageSize <> 0 -> keeps vmas (MMapObject_dealloc obj).
Proof.
  intros Hun. unfold MMapObject_dealloc, mmapSize. cbv zeta.
  apply keeps_bind; [apply keeps_outstanding_post_decr, vmas_frame|intros old].
  apply keeps_bind; [auto with frame|intros _].
  apply keeps_bind; [unfold load_size_t; auto with frame|intros len].
  intros st. unfold bind. rewrite munmap_unaligned by exact Hun.
  reflexivity.
Qed.

Lemma dealloc_unaligned_traps obj st :
  obj mod pageSize <> 0 ->
  object_mapped st obj Layout.sizeof_MMapObject ->
  exists st', MMapObject_dealloc obj st = Killed SIGTRAP st'.
Proof.
  intros Hun Hm. unfold MMapObject_dealloc, mmapSize. cbv zeta.
  unfold bind at 1, outstanding_post_decr.
  destruct (s_outstandingPages st =? 0); [eexists; reflexivity|].
  rewrite bind_ret.
  assert (Hm' : object_mapped
                  (with_outstanding (wrap64 (s_outstandingPages st - 1)) st)
                  obj Layout.sizeof_MMapObject) by exact Hm.
  rewrite (bind_load_size_t _ obj Layout.sizeof_MMapObject Hm')
    by (unfold Layout.m_mmapSize, Layout.sizeof_MMapObject; lia).
  unfold bind. rewrite munmap_unaligned by exact Hun.
  eexists; reflexivity.
Qed.

(** C2 (what the code does instead): [ArenaStore::free] and
    [MMapObject::dealloc] use the pointer they are given as the header: no
    rounding down to the page.  For a pointer that is not page aligned
    nothing is ever unmapped, however the call ends; and when the eight
    bytes that [arenaSize()] reads at the pointer itself (not at the header
    of the page) are zero, the call ends in [SIGTRAP], raised on the
    [EINVAL] of [munmap]. *)
Theorem free_interior_pointer (ptr : Z) (st : state) :
  ptr mod pageSize <> 0 ->
  vmas (final_state (myFree ptr st)) = vmas st
  /\ (object_mapped st ptr Layout.sizeof_MMapObject ->
      load_bytes (bytes st) (ptr + Layout.m_arenaSize) 8 = 0 ->
      exists st', myFree ptr st = Killed SIGTRAP st').
Proof.
  intros Hun. split.
  - revert st. change (keeps vmas (myFree ptr)).
    unfold myFree, ArenaStore_free, arenaSize, load_size_t. cbv zeta.
    apply keeps_bind; [auto with frame|intros a].
    apply keeps_if; [now apply keeps_vmas_dealloc_unaligned|].
    apply keeps_bind; [apply keeps_Arena_free, vmas_frame|intros drained].
    apply keeps_if; [now apply keeps_vmas_dealloc_unaligned|apply keeps_ret].
  - intros Hm Hzero. unfold myFree, ArenaStore_free, arenaSize. cbv zeta.
    rewrite (bind_load_size_t st ptr Layout.sizeof_MMapObject Hm)
      by (unfold Layout.m_arenaSize, Layout.sizeof_MMapObject; lia).
    rewrite Hzero. change (0 =? 0) with true. cbv iota.
    now apply dealloc_unaligned_traps.
Qed.

Lemma free_interior_pointer_witness :
  returned (myMalloc 2000 (initial [65536])) = Some 65552
  /\ 65552 mod pageSize <> 0
  /\ load_bytes (bytes after_malloc_2000) (65536 + Layout.m_mmapSize) 8 = 2000
  /\ vmas (final_state (myFree 65552 after_malloc_2000)) = [(65536, 69632)]
  /\ exists st', myFree 65552 after_malloc_2000 = Killed SIGTRAP st'.
Proof.
  assert (Hun : 65552 mod pageSize <> 0) by (vm_compute; discriminate).
  destruct (free_interior_pointer 65552 after_malloc_2000 Hun) as [Hv Htrap].
  split; [reflexivity|]. split; [exact Hun|]. split; [reflexivity|].
  split; [exact Hv|]. apply Htrap.
  - exists 65536, 69632. vm_compute.
    repeat split; try discriminate. now left.
  - reflexivity.
Defined.

(** ** The large path *)

(** C4 (what the code does instead): [BigAlloc::alloc] asks
    [MMapObject::alloc] for [size] bytes, not [size + sizeof(BigAlloc)].
    The mapping is the page-rounded [size], the header records a total of
    [size] bytes, and the pointer returned is 16 bytes into it: the Region is
    16 bytes short of holding header and payload. *)
Theorem BigAlloc_alloc_region (st : state) (size r : Z) (rest : list Z) :
  os_next st = r :: rest ->
  placement_ok (vmas st) r (page_align size) = true ->
  0 <= size < 2 ^ 64 ->
  exists st',
    BigAlloc_alloc size st = Ret (r + Layout.sizeof_BigAlloc) st'
    /\ vmas st' = (r, r + page_align size) :: vmas st
    /\ load_bytes (bytes st') (r + Layout.m_mmapSize) 8 = size
    /\ load_bytes (bytes st') (r + Layout.m_arenaSize) 8 = 0.
Proof.
  intros Hos Hok Hsize.
  destruct (placement_ok_inv _ _ _ Hok) as (Hlen & _ & Hmin & Hmax).
  unfold mmap_min_addr, TASK_SIZE, pageSize in Hmin, Hmax.
  destruct (MMapObject_alloc_spec st size 0 r rest Hos Hok)
    as (st' & Hrun & Hv & _ & _ & _ & Hsz & Hasz & _).
  exists st'. unfold BigAlloc_alloc. unfold bind. rewrite Hrun.
  replace (r =? nullptr) with false by (unfold nullptr; lia).
  change (false || negb (Layout.sizeof_BigAlloc mod 8 =? 0)) with false. cbv iota.
  unfold ret. rewrite wrap64_small by (unfold Layout.BigAlloc_m_data; lia).
  split; [reflexivity|]. split; [exact Hv|].
  split; [now rewrite Hsz, wrap64_small | exact Hasz].
Qed.

Lemma BigAlloc_alloc_region_witness :
  (exists st',
     BigAlloc_alloc 2000 (initial [65536]) = Ret 65552 st'
     /\ vmas st' = [(65536, 69632)]
     /\ load_bytes (bytes st') (65536 + Layout.m_mmapSize) 8 = 2000)
  /\ (exists st',
        BigAlloc_alloc 4096 (initial [65536]) = Ret 65552 st'
        /\ vmas st' = [(65536, 69632)]
        /\ load_bytes (bytes st') (65536 + Layout.m_mmapSize) 8 = 4096
        /\ mapped (vmas st') (65552 + 4096 - 1) = false).
Proof.
  split.
  - destruct (BigAlloc_alloc_region (initial [65536]) 2000 65536 [])
      as (st' & Hrun & Hv & Hsz & _); [reflexivity | reflexivity | lia |].
    exists st'. split; [exact Hrun|]. split; [exact Hv | exact Hsz].
  - destruct (BigAlloc_alloc_region (initial [65536]) 4096 65536 [])
      as (st' & Hrun & Hv & Hsz & _); [reflexivity | reflexivity | lia |].
    exists st'. split; [exact Hrun|]. split; [exact Hv|]. split; [exact Hsz|].
    rewrite Hv. reflexivity.
Defined.

(** ** An exhausted arena *)

(** C5 (what the code does instead): when the current arena of a class is
    full, [ArenaStore::alloc] clears the table entry and returns the null
    pointer it got from the arena; it does not create a fresh arena for this
    request, whatever the kernel could map.  Only the request after that one
    finds the entry null and creates an arena. *)
Theorem exhausted_arena_request_returns_null (n this : Z) (st : state) :
  n <= 1024 ->
  m_arenas st !! Z.to_nat (snd (classify n)) = Some this ->
  this <> nullptr ->
  object_mapped st this Layout.sizeof_Arena ->
  v_arenaSize (arena_at st this) > v_size_remain (arena_at st this) ->
  myMalloc n st
  = Ret nullptr
        (with_arenas (<[Z.to_nat (snd (classify n)) := nullptr]> (m_arenas st)) st).
Proof.
  intros Hn Hcur Hnn Hm Hfull.
  pose proof (classify_index_range n Hn) as Hidx.
  unfold myMalloc, ArenaStore_alloc.
  replace (n >? 1024) with false by lia.
  destruct (classify n) as [c idx]. cbn [snd] in *.
  assert (Hget : get_arena idx st = Ret this st).
  { unfold get_arena. replace (0 <=? idx) with true by lia. now rewrite Hcur. }
  unfold bind at 1. rewrite Hget.
  replace (this =? nullptr) with false by (unfold nullptr in *; lia).
  rewrite bind_ret. unfold bind at 1. rewrite Hget.
  unfold bind at 1. rewrite (Arena_alloc_full st this Hm Hfull).
  change (nullptr =? nullptr) with true. cbv iota.
  unfold bind, set_arena.
  apply lookup_lt_Some in Hcur.
  replace ((0 <=? idx) && (idx <? Z.of_nat (length (m_arenas st)))) with true by lia.
  reflexivity.
Qed.

Lemma exhausted_arena_request_returns_null_witness :
  returned (malloc_many 4 1024 (initial [65536; 131072]))
  = Some [66600; 67624; 68648; 69672]
  /\ os_next after_four_1024 = [131072]
  /\ placement_ok (vmas after_four_1024) 131072 pageSize = true
  /\ returned (myMalloc 1024 after_four_1024) = Some nullptr
  /\ returned (malloc_many 2 1024 after_four_1024) = Some [nullptr; 132136].
Proof.
  split; [reflexivity|]. split; [reflexivity|]. split; [reflexivity|].
  split; [|reflexivity].
  rewrite (exhausted_arena_request_returns_null 1024 65536 after_four_1024).
  - reflexivity.
  - lia.
  - reflexivity.
  - discriminate.
  - exists 65536, 69632. vm_compute. repeat split; try discriminate. now left.
  - reflexivity.
Defined.

(** ** Blocks and their Regions *)

(** The slots of an arena are 8-byte aligned when the item size is a
    multiple of 8, as every class size is. *)
Lemma fresh_arena_slots_aligned (r s : Z) (k : nat) (p : Z) :
  r mod pageSize = 0 -> s mod 8 = 0 ->
  p ∈ slots_after (r + Layout.Arena_m_data) s k -> p mod 8 = 0.
Proof.
  intros Hr Hs Hp. apply list_elem_of_lookup in Hp as [j Hj].
  assert (Hlt : (j < k)%nat).
  { apply lookup_lt_Some in Hj. now rewrite slots_after_length in Hj. }
  rewrite slots_after_lookup in Hj by exact Hlt. injection Hj as <-.
  apply Z.mod_divide in Hr as [q Hq]; [|unfold pageSize; lia].
  apply Z.mod_divide in Hs as [t Ht]; [|lia].
  apply Z.mod_divide; [lia|].
  exists (512 * q + 5 + (Z.of_nat j + 1) * t).
  unfold Layout.Arena_m_data, pageSize in *. lia.
Qed.

(** C7 (what the code does instead): on a fresh process whose kernel maps
    at 65536, a request of 4096 bytes returns 65552 in a Region that ends at
    69632, so the last 16 bytes of the block are outside every mapping; and
    the third request of 1024 bytes returns 68648 in the arena page that ends
    at 69632, so the last 40 bytes of that block are outside it too.  All the
    pointers are multiples of 8. *)
Theorem malloc_block_outside_region :
  (exists st',
     myMalloc 4096 (initial [65536]) = Ret 65552 st'
     /\ vmas st' = [(65536, 69632)]
     /\ 65552 mod 8 = 0
     /\ mapped (vmas st') (65552 + 4096 - 1) = false)
  /\ (exists st',
        malloc_many 3 1024 (initial [65536]) = Ret [66600; 67624; 68648] st'
        /\ vmas st' = [(65536, 69632)]
        /\ 68648 mod 8 = 0
        /\ mapped (vmas st') (68648 + 1024 - 1) = false).
Proof.
  split; eexists; (split; [vm_compute; reflexivity|]); repeat split.
Qed.

(** * Further properties of the code *)

(** ** Unmapping *)

Ltac bool_lia :=
  repeat match goal with
  | |- context [?a <? ?b] => destruct (Z.ltb_spec a b)
  | |- context [?a <=? ?b] => destruct (Z.leb_spec a b)
  end; cbn [andb orb negb existsb app]; try reflexivity; try lia.

Lemma cut_covers lo hi (v : Z * Z) a :
  lo <= hi ->
  existsb (fun v' => in_range v'.1 v'.2 a) (cut lo hi v)
  = in_range v.1 v.2 a && negb (in_range lo hi a).
Proof.
  intros Hle. destruct v as [x y]. unfold cut, in_range. cbn [fst snd].
  destruct (Z.ltb_spec x (Z.min y lo)); destruct (Z.ltb_spec (Z.max x hi) y);
    cbn [app existsb fst snd]; bool_lia.
Qed.

(** After [munmap] of [[lo, hi)], the mapped addresses are the ones that
    were mapped and lie outside the range. *)
Lemma mapped_after_cut vs lo hi a :
  lo <= hi ->
  mapped (flat_map (cut lo hi) vs) a = mapped vs a && negb (in_range lo hi a).
Proof.
  intros Hle. unfold mapped. rewrite <- andb_assoc. f_equal.
  induction vs as [|v vs IH]; [reflexivity|].
  cbn [flat_map existsb]. rewrite existsb_app, IH, (cut_covers lo hi v a Hle).
  destruct (in_range v.1 v.2 a), (existsb _ vs), (in_range lo hi a); reflexivity.
Qed.

Lemma page_align_nonneg len : 0 <= len -> 0 <= page_align len.
Proof.
  intros Hlen. unfold page_align, pageSize.
  apply Z.mul_nonneg_nonneg; [|lia]. apply Z.div_pos; lia.
Qed.

(** [MMapObject::dealloc] on the page-aligned header of a Region: the
    counter goes down by one and the pages of the recorded length go. *)
Lemma MMapObject_dealloc_spec st obj len :
  s_outstandingPages st <> 0 ->
  obj mod pageSize = 0 ->
  object_mapped st obj Layout.sizeof_MMapObject ->
  load_bytes (bytes st) (obj + Layout.m_mmapSize) 8 = len ->
  0 < len -> obj + page_align len <= TASK_SIZE ->
  MMapObject_dealloc obj st
  = Ret tt (with_vmas (flat_map (cut obj (obj + page_align len)) (vmas st))
              (with_outstanding (wrap64 (s_outstandingPages st - 1)) st)).
Proof.
  intros Hcnt Hal Hm Hlen Hpos Hmax.
  unfold MMapObject_dealloc, mmapSize. cbv zeta.
  unfold bind at 1, outstanding_post_decr.
  replace (s_outstandingPages st =? 0) with false by lia.
  rewrite bind_ret.
  assert (Hm' : object_mapped
                  (with_outstanding (wrap64 (s_outstandingPages st - 1)) st)
                  obj Layout.sizeof_MMapObject) by exact Hm.
  rewrite (bind_load_size_t _ obj Layout.sizeof_MMapObject Hm')
    by (unfold Layout.m_mmapSize, Layout.sizeof_MMapObject; lia).
  cbn [bytes with_outstanding]. rewrite Hlen.
  unfold bind, munmap. rewrite Hal.
  replace (len =? 0) with false by lia.
  replace (TASK_SIZE <? obj + page_align len) with false by lia.
  reflexivity.
Qed.

(** A placement is disjoint from what was mapped before. *)
Lemma placement_disjoint vs r len a :
  placement_ok vs r len = true ->
  existsb (fun v => in_range v.1 v.2 a) vs = true ->
  in_range r (r + len) a = false.
Proof.
  unfold placement_ok. intros Hok Hex.
  apply andb_prop in Hok as [_ Hall].
  apply existsb_exists in Hex as ([x y] & Hin & Hxy).
  rewrite forallb_forall in Hall. specialize (Hall _ Hin).
  unfold overlaps, in_range in *. cbn [fst snd] in *.
  apply negb_true_iff in Hall.
  apply andb_prop in Hxy as [Hx Hy].
  apply andb_false_iff in Hall.
  apply andb_false_iff.
  destruct (Z.leb_spec r a); [right|now left].
  destruct (Z.ltb_spec a (r + len)); [|reflexivity].
  destruct Hall as [Hall|Hall]; lia.
Qed.

Lemma mapped_round_trip vs r len a :
  placement_ok vs r len = true ->
  mapped (flat_map (cut r (r + len)) ((r, r + len) :: vs)) a = mapped vs a.
Proof.
  intros Hok. destruct (placement_ok_inv _ _ _ Hok) as (Hlen & _).
  rewrite mapped_after_cut by lia. unfold mapped. cbn [existsb fst snd].
  destruct (in_range mmap_min_addr TASK_SIZE a); [|reflexivity]. cbn [andb].
  destruct (existsb _ vs) eqn:Hex.
  - rewrite (placement_disjoint vs r len a Hok Hex). reflexivity.
  - destruct (in_range r (r + len) a); reflexivity.
Qed.

(** X1: when the kernel places the mapping at [r], [MMapObject::alloc]
    returns [r]; from then on [mmapSize()] returns the size asked for and
    [arenaSize()] the item size given, the counter is one higher, the table
    of arenas is as before, and the Region is the page-rounded size at [r]. *)
Theorem MMapObject_alloc_records (st : state) (size arenaSize0 r : Z) (rest : list Z) :
  os_next st = r :: rest ->
  placement_ok (vmas st) r (page_align size) = true ->
  0 <= size < 2 ^ 64 -> 0 <= arenaSize0 < 2 ^ 64 ->
  exists st',
    MMapObject_alloc size arenaSize0 st = Ret r st'
    /\ mmapSize r st' = Ret size st'
    /\ arenaSize r st' = Ret arenaSize0 st'
    /\ outstandingPages st' = wrap64 (outstandingPages st + 1)
    /\ vmas st' = (r, r + page_align size) :: vmas st
    /\ m_arenas st' = m_arenas st.
Proof.
  intros Hos Hok Hsize Hasz.
  destruct (placement_ok_inv _ _ _ Hok) as (Hlen & _ & Hmin & Hmax).
  destruct (page_align_covers size Hlen) as [Hpage _].
  destruct (MMapObject_alloc_spec st size arenaSize0 r rest Hos Hok)
    as (st' & Hrun & Hv & _ & Ht & Hc & Hsz & Ha & _).
  assert (Hm : object_mapped st' r Layout.sizeof_MMapObject).
  { exists r, (r + page_align size). rewrite Hv.
    unfold Layout.sizeof_MMapObject, pageSize in *.
    repeat split; [now left|lia..]. }
  exists st'. split; [exact Hrun|].
  unfold mmapSize, arenaSize.
  rewrite !(load_size_t_ok st' r Layout.sizeof_MMapObject)
    by (auto; unfold Layout.m_mmapSize, Layout.m_arenaSize, Layout.sizeof_MMapObject; lia).
  rewrite Hsz, Ha, !wrap64_small by lia.
  repeat split; assumption.
Qed.

Lemma MMapObject_alloc_records_witness :
  exists st',
    MMapObject_alloc 5000 0 (initial [65536]) = Ret 65536 st'
    /\ mmapSize 65536 st' = Ret 5000 st'
    /\ arenaSize 65536 st' = Ret 0 st'
    /\ outstandingPages st' = 1
    /\ vmas st' = [(65536, 73728)].
Proof.
  destruct (MMapObject_alloc_records (initial [65536]) 5000 0 65536 [])
    as (st' & H1 & H2 & H3 & H4 & H5 & _);
    [reflexivity | reflexivity | lia | lia |].
  exists st'. repeat split; assumption.
Defined.

(** X2: [MMapObject::alloc] followed by [MMapObject::dealloc] of the pointer
    it returned is a round trip: the call returns, the counter is back to
    its value, the same addresses are mapped as before, and the table of
    arenas was not touched. *)
Theorem MMapObject_alloc_dealloc_round_trip
    (st : state) (size arenaSize0 r : Z) (rest : list Z) :
  os_next st = r :: rest ->
  placement_ok (vmas st) r (page_align size) = true ->
  0 <= size < 2 ^ 64 ->
  0 <= s_outstandingPages st < 2 ^ 64 - 1 ->
  exists st1 st2,
    MMapObject_alloc size arenaSize0 st = Ret r st1
    /\ MMapObject_dealloc r st1 = Ret tt st2
    /\ outstandingPages st2 = outstandingPages st
    /\ (forall a, mapped (vmas st2) a = mapped (vmas st) a)
    /\ m_arenas st2 = m_arenas st.
Proof.
  intros Hos Hok Hsize Hcnt.
  destruct (placement_ok_inv _ _ _ Hok) as (Hlen & Hal & Hmin & Hmax).
  destruct (page_align_covers size Hlen) as [Hpage Hcov].
  destruct (MMapObject_alloc_spec st size arenaSize0 r rest Hos Hok)
    as (st1 & Hrun & Hv & _ & Ht & Hc & Hsz & _).
  assert (Hm : object_mapped st1 r Layout.sizeof_MMapObject).
  { exists r, (r + page_align size). rewrite Hv.
    unfold Layout.sizeof_MMapObject, pageSize in *.
    repeat split; [now left|lia..]. }
  assert (Hpos : 0 < size).
  { unfold page_align, pageSize in Hlen.
    destruct (Z_lt_le_dec 0 size) as [|Hle]; [assumption|].
    assert (size = 0) by lia. subst size. vm_compute in Hlen. discriminate. }
  rewrite wrap64_small in Hsz by lia.
  eexists st1, _. split; [exact Hrun|]. split.
  - apply (MMapObject_dealloc_spec st1 r size); auto.
    rewrite Hc. unfold wrap64. rewrite Z.mod_small; lia.
  - unfold outstandingPages. cbn [s_outstandingPages vmas m_arenas with_vmas with_outstanding].
    split; [|split].
    + rewrite Hc. unfold wrap64. rewrite (Z.mod_small (_ + 1)) by lia.
      rewrite Z.mod_small; lia.
    + intros a. rewrite Hv. now apply mapped_round_trip.
    + exact Ht.
Qed.

Lemma MMapObject_alloc_dealloc_round_trip_witness :
  exists st1 st2,
    MMapObject_alloc 5000 0 (initial [65536]) = Ret 65536 st1
    /\ MMapObject_dealloc 65536 st1 = Ret tt st2
    /\ outstandingPages st2 = 0
    /\ mapped (vmas st1) 70000 = true
    /\ mapped (vmas st2) 70000 = false.
Proof.
  destruct (MMapObject_alloc_dealloc_round_trip (initial [65536]) 5000 0 65536 [])
    as (st1 & st2 & H1 & H2 & H3 & H4 & _);
    [reflexivity | reflexivity | lia | cbn; lia |].
  exists st1, st2. split; [exact H1|]. split; [exact H2|]. split; [exact H3|].
  split; [|rewrite H4; reflexivity].
  destruct (MMapObject_alloc_spec (initial [65536]) 5000 0 65536 [])
    as (st1' & H1' & Hv & _); [reflexivity | reflexivity |].
  assert (st1' = st1) by congruence. subst st1'. rewrite Hv. reflexivity.
Defined.

(** X3: [MMapObject::dealloc] while the counter is 0 is the double release
    the source traps on: the process is killed by [SIGTRAP] before [munmap]
    is reached, so nothing is unmapped; the counter has wrapped to
    [2 ^ 64 - 1]. *)
Theorem MMapObject_dealloc_double_release (obj : Z) (st : state) :
  outstandingPages st = 0 ->
  exists st',
    MMapObject_dealloc obj st = Killed SIGTRAP st'
    /\ vmas st' = vmas st
    /\ outstandingPages st' = 2 ^ 64 - 1.
Proof.
  unfold outstandingPages. intros Hzero.
  unfold MMapObject_dealloc. cbv zeta. unfold bind at 1, outstanding_post_decr.
  rewrite Hzero. change (0 =? 0) with true. cbv iota.
  eexists. split; [reflexivity|]. split; reflexivity.
Qed.

Lemma MMapObject_dealloc_double_release_witness :
  exists st',
    MMapObject_dealloc 65536 (initial []) = Killed SIGTRAP st'
    /\ vmas st' = []
    /\ outstandingPages st' = 2 ^ 64 - 1.
Proof.
  apply (MMapObject_dealloc_double_release 65536 (initial [])). reflexivity.
Defined.

(** ** The shift loop *)

Lemma shift_loop_log2 (w : nat) :
  forall b i idx,
    0 < b < 2 ^ Z.of_nat w -> 0 <= i -> i * 2 ^ Z.log2 b < 2 ^ 64 ->
    shift_loop w b i idx = (i * 2 ^ Z.log2 b, idx + Z.log2 b).
Proof.
  induction w as [|w IH]; intros b i idx Hb Hi Hfit.
  - change (2 ^ Z.of_nat 0) with 1 in Hb. lia.
  - cbn [shift_loop].
    pose proof (shiftr1_bound w b ltac:(lia)) as Hb'.
    destruct (Z.eqb_spec (Z.shiftr b 1) 0) as [Hz|Hnz].
    + assert (b = 1).
      { rewrite Z.shiftr_div_pow2 in Hz by lia. change (2 ^ 1) with 2 in Hz.
        pose proof (Z.div_mod b 2 ltac:(lia)).
        pose proof (Z.mod_pos_bound b 2 ltac:(lia)). lia. }
      subst b. change (Z.log2 1) with 0. f_equal; lia.
    + assert (Hlog : Z.log2 b = Z.log2 (Z.shiftr b 1) + 1).
      { rewrite Z.log2_shiftr by lia.
        assert (1 <= Z.log2 b).
        { apply Z.log2_le_pow2; [lia|].
          rewrite Z.shiftr_div_pow2 in Hnz, Hb' by lia. change (2 ^ 1) with 2 in *.
          destruct (Z_lt_le_dec b 2) as [Hlt|]; [|assumption].
          rewrite Z.div_small in Hnz by lia. congruence. }
        lia. }
      pose proof (Z.log2_nonneg (Z.shiftr b 1)) as Hnn.
      assert (Hpow : 2 ^ Z.log2 b = 2 * 2 ^ Z.log2 (Z.shiftr b 1)).
      { rewrite Hlog, Z.pow_add_r by lia. change (2 ^ 1) with 2. lia. }
      assert (Hpos : 0 < 2 ^ Z.log2 (Z.shiftr b 1)) by (apply Z.pow_pos_nonneg; lia).
      rewrite Z.shiftl_mul_pow2 by lia. change (2 ^ 1) with 2.
      rewrite wrap64_small by nia.
      rewrite IH; [f_equal; nia | lia | lia | nia].
Qed.

(** X4: for every nonzero [size_t], the loop [while(bytes >>= 1)] of
    [ArenaStore::alloc], started with [i = 1] and [arena_index = 0], ends
    with [i] the largest power of two that is at most [bytes] and
    [arena_index] its exponent, the integer logarithm of [bytes]. *)
Theorem shift_loop_floor_log2 (bytes : Z) :
  0 < bytes < 2 ^ 64 ->
  shift_loop 64 bytes 1 0 = (2 ^ Z.log2 bytes, Z.log2 bytes)
  /\ 2 ^ Z.log2 bytes <= bytes < 2 * 2 ^ Z.log2 bytes.
Proof.
  intros Hb.
  pose proof (Z.log2_spec bytes ltac:(lia)) as Hspec.
  rewrite Z.pow_succ_r in Hspec by apply Z.log2_nonneg.
  split; [|lia].
  rewrite (shift_loop_log2 64 bytes 1 0); [f_equal; lia | exact Hb | lia | lia].
Qed.

Lemma shift_loop_floor_log2_witness :
  0 < 1000 < 2 ^ 64 /\ shift_loop 64 1000 1 0 = (512, 9).
Proof.
  split; [lia|].
  destruct (shift_loop_floor_log2 1000 ltac:(lia)) as [H _]. exact H.
Defined.

(** ** [Arena::free] *)

Lemma ret_bool (b : bool) (st : state) :
  (if b then ret true else ret false) st = Ret b st.
Proof. destruct b; reflexivity. Qed.

Lemma Arena_free_spec st this :
  object_mapped st this Layout.sizeof_Arena ->
  let v := arena_at st this in
  - 2 ^ 31 <= v_item_count v < 2 ^ 31 ->
  let c' := if v_item_count v >? 0 then v_item_count v - 1 else v_item_count v in
  exists st',
    Arena_free this st
    = Ret ((c' =? 0) && (v_arenaSize v >? v_size_remain v)) st'
    /\ arena_at st' this = mkArena (v_arenaSize v) c' (v_size_remain v) (v_m_next v)
    /\ vmas st' = vmas st /\ m_arenas st' = m_arenas st
    /\ s_outstandingPages st' = s_outstandingPages st /\ os_next st' = os_next st.
Proof.
  intros Hm v Hc c'. unfold Arena_free.
  exec Hm Layout.sizeof_Arena. fold (arena_at st this) in *.
  change (to_int (load_bytes (bytes st) (this + Layout.item_count) 4))
    with (v_item_count v) in *.
  destruct (v_item_count v >? 0) eqn:Hpos.
  - exec Hm Layout.sizeof_Arena. mem_simpl.
    rewrite to_int_wrap32 by lia. fold c'.
    destruct (c' =? 0) eqn:Hz.
    + unfold bind at 1.
      match goal with |- context [Arena_full this ?s] =>
        assert (Hm' : object_mapped s this Layout.sizeof_Arena) by exact Hm;
        rewrite (Arena_full_spec s this Hm')
      end.
      eexists. split.
      * unfold arena_at. cbn [v_arenaSize v_size_remain]. mem_simpl.
        change (load_bytes (bytes st) (this + Layout.m_arenaSize) 8)
          with (v_arenaSize v).
        change (load_bytes (bytes st) (this + Layout.size_remain) 8)
          with (v_size_remain v).
        cbn [andb]. apply ret_bool.
      * unfold arena_at. mem_simpl. rewrite to_int_wrap32 by lia.
        repeat split.
    + eexists. split; [reflexivity|].
      unfold arena_at. mem_simpl. rewrite to_int_wrap32 by lia.
      repeat split.
  - rewrite bind_ret. exec Hm Layout.sizeof_Arena.
    change (to_int (load_bytes (bytes st) (this + Layout.item_count) 4))
      with (v_item_count v).
    fold c'. exists st.
    destruct (c' =? 0) eqn:Hz.
    + unfold bind at 1. rewrite (Arena_full_spec st this Hm). fold v.
      split; [cbn [andb]; apply ret_bool|].
      repeat split.
    + split; [reflexivity|]. repeat split.
Qed.

(** X5: [Arena::free] on an arena whose count is not negative takes one off
    the count unless it is already 0, and changes no other member.  It
    returns true exactly when the count it leaves is 0 and the arena is
    full; on an arena with room left it returns false. *)
Theorem Arena_free_result (st : state) (this : Z) :
  object_mapped st this Layout.sizeof_Arena ->
  0 <= v_item_count (arena_at st this) < 2 ^ 31 ->
  exists b st',
    Arena_free this st = Ret b st'
    /\ arena_at st' this
       = mkArena (v_arenaSize (arena_at st this))
                 (Z.max 0 (v_item_count (arena_at st this) - 1))
                 (v_size_remain (arena_at st this))
                 (v_m_next (arena_at st this))
    /\ (b = true <->
        v_item_count (arena_at st this) <= 1
        /\ v_arenaSize (arena_at st this) > v_size_remain (arena_at st this))
    /\ vmas st' = vmas st /\ outstandingPages st' = outstandingPages st.
Proof.
  intros Hm Hc.
  destruct (Arena_free_spec st this Hm ltac:(lia))
    as (st' & Hrun & Hat & Hv & _ & Ho & _).
  eexists _, st'. split; [exact Hrun|].
  set (v := arena_at st this) in *.
  assert (Hc' : (if v_item_count v >? 0 then v_item_count v - 1 else v_item_count v)
                = Z.max 0 (v_item_count v - 1)).
  { destruct (Z.gtb_spec (v_item_count v) 0); lia. }
  rewrite Hc' in *. split; [exact Hat|]. split; [|split; assumption].
  rewrite andb_true_iff, Z.eqb_eq. split.
  - intros [Hz Hfull]. split; [lia|].
    destruct (Z.gtb_spec (v_arenaSize v) (v_size_remain v)); [lia|discriminate].
  - intros [Hz Hfull]. split; [lia|].
    destruct (Z.gtb_spec (v_arenaSize v) (v_size_remain v)); [reflexivity|lia].
Qed.

Lemma Arena_free_result_witness :
  exists b st',
    Arena_free 65536 after_four_1024 = Ret b st'
    /\ v_item_count (arena_at after_four_1024 65536) = 4
    /\ v_item_count (arena_at st' 65536) = 3
    /\ b <> true.
Proof.
  destruct (Arena_free_result after_four_1024 65536)
    as (b & st' & Hrun & Hat & Hb & _).
  - exists 65536, 69632. vm_compute. repeat split; try discriminate. now left.
  - vm_compute. split; [discriminate | reflexivity].
  - exists b, st'. split; [exact Hrun|]. split; [reflexivity|].
    split; [rewrite Hat; reflexivity|].
    intros Htrue. apply Hb in Htrue as [Hle _]. vm_compute in Hle. now apply Hle.
Defined.

(** The results of [k] calls of [free()] on an arena that holds at least
    [k] items. *)
Lemma Arena_free_many_spec this (k : nat) :
  forall st s c rem n,
    object_mapped st this Layout.sizeof_Arena ->
    arena_at st this = mkArena s c rem n ->
    Z.of_nat k <= c < 2 ^ 31 ->
    exists st',
      Arena_free_many this k st
      = Ret ((fun j => (c - Z.of_nat j =? 0) && (s >? rem)) <$> seq 1 k) st'
      /\ arena_at st' this = mkArena s (c - Z.of_nat k) rem n
      /\ vmas st' = vmas st /\ s_outstandingPages st' = s_outstandingPages st.
Proof.
  induction k as [|k IH]; intros st s c rem n Hm Hat Hc.
  - exists st. cbn [Arena_free_many seq fmap list_fmap]. rewrite Hat.
    repeat split. f_equal; lia.
  - destruct (Arena_free_spec st this Hm) as (st1 & Hrun & Hat1 & Hv1 & _ & Ho1 & _);
      rewrite Hat in *; cbn [v_arenaSize v_size_remain v_item_count v_m_next] in *;
      [lia|].
    replace (c >? 0) with true in * by lia.
    destruct (IH st1 s (c - 1) rem n) as (st2 & Hrun2 & Hat2 & Hv2 & Ho2);
      [now apply (object_mapped_same_vmas st) | exact Hat1 | lia |].
    exists st2. cbn [Arena_free_many]. unfold bind at 1. rewrite Hrun.
    unfold bind at 1. rewrite Hrun2.
    split; [|split; [|split; congruence]].
    + unfold ret. f_equal. cbn [seq fmap list_fmap]. f_equal.
      rewrite <- (fmap_S_seq 1 k), <- list_fmap_compose. apply list_fmap_ext.
      intros _ j _. simpl. do 2 f_equal. lia.
    + rewrite Hat2. f_equal. lia.
Qed.

Lemma drain_results (c : Z) (k : nat) (full : bool) :
  Z.of_nat k = c -> (1 <= k)%nat ->
  (fun j => (c - Z.of_nat j =? 0) && full) <$> seq 1 k
  = replicate (k - 1) false ++ [full].
Proof.
  intros Hk H1. destruct k as [|k]; [lia|].
  replace (S k - 1)%nat with k by lia.
  replace (S k) with (k + 1)%nat by lia.
  rewrite seq_app, fmap_app. cbn [seq fmap list_fmap Nat.add]. f_equal.
  - apply list_eq_same_length with k.
    + apply length_replicate.
    + now rewrite length_fmap, length_seq.
    + intros i x y Hi Hx Hy. apply lookup_replicate in Hy as [-> _].
      rewrite list_lookup_fmap, lookup_seq_lt in Hx by exact Hi.
      injection Hx as <-.
      match goal with |- context [?a =? 0] => destruct (Z.eqb_spec a 0) end;
        [lia | reflexivity].
  - f_equal.
    match goal with |- context [?a =? 0] => destruct (Z.eqb_spec a 0) end;
      [reflexivity | lia].
Qed.

(** X6: a fresh arena that was filled ([pageSize / itemSize] calls of
    [alloc()]) and then gets as many calls of [free()]: every call but the
    last returns false, the last one returns true, and the count is 0. *)
Theorem Arena_fill_then_drain (st : state) (itemSize r : Z) (rest : list Z) :
  os_next st = r :: rest ->
  placement_ok (vmas st) r pageSize = true ->
  0 < itemSize <= pageSize ->
  let k := Z.to_nat (pageSize / itemSize) in
  exists st1 st2 st3 ps,
    Arena_create itemSize st = Ret r st1
    /\ Arena_alloc_many r k st1 = Ret ps st2
    /\ Arena_free_many r k st2 = Ret (replicate (k - 1) false ++ [true]) st3
    /\ v_item_count (arena_at st3 r) = 0.
Proof.
  intros Hos Hok Hsize k.
  destruct (fresh_arena_run st itemSize r rest Hos Hok)
    as (st1 & Hrun & _ & _ & Hmany); [unfold pageSize in *; lia|].
  assert (Hk : Z.of_nat k = pageSize / itemSize).
  { unfold k. apply Z2Nat.id. apply Z.div_pos; unfold pageSize; lia. }
  pose proof (Z.div_mod pageSize itemSize ltac:(lia)) as Hdiv.
  pose proof (Z.mod_pos_bound pageSize itemSize ltac:(lia)) as Hmod.
  assert (Hk1 : (1 <= k)%nat).
  { assert (1 <= pageSize / itemSize) by (apply Z.div_le_lower_bound; lia). lia. }
  assert (Hk4 : Z.of_nat k <= 4096) by (unfold pageSize in *; nia).
  destruct (Hmany k ltac:(nia)) as (st2 & Hrun2 & Hm2 & Hat2).
  destruct (Arena_free_many_spec r k st2 _ _ _ _ Hm2 Hat2 ltac:(lia))
    as (st3 & Hrun3 & Hat3 & _).
  exists st1, st2, st3, (slots_after (r + Layout.Arena_m_data) itemSize k).
  split; [exact Hrun|]. split; [exact Hrun2|].
  split.
  - rewrite Hrun3. f_equal.
    rewrite (drain_results (Z.of_nat k) k _ eq_refl Hk1). do 2 f_equal.
    destruct (Z.gtb_spec itemSize (pageSize - Z.of_nat k * itemSize)); [reflexivity|nia].
  - rewrite Hat3. cbn [v_item_count]. lia.
Qed.

Lemma Arena_fill_then_drain_witness :
  exists st1 st2 st3 ps,
    Arena_create 1024 (initial [65536]) = Ret 65536 st1
    /\ Arena_alloc_many 65536 4 st1 = Ret ps st2
    /\ Arena_free_many 65536 4 st2 = Ret [false; false; false; true] st3
    /\ v_item_count (arena_at st3 65536) = 0.
Proof.
  destruct (Arena_fill_then_drain (initial [65536]) 1024 65536 [])
    as (st1 & st2 & st3 & ps & H);
    [reflexivity | reflexivity | unfold pageSize; lia |].
  exists st1, st2, st3, ps. exact H.
Defined.

(** X7: after a call of [alloc()] that found room, [next()] returns the
    very pointer that [alloc()] has just handed out: the cursor is left on
    the slot that was issued. *)
Theorem Arena_next_after_alloc (st : state) (this : Z) :
  object_mapped st this Layout.sizeof_Arena ->
  v_arenaSize (arena_at st this) <= v_size_remain (arena_at st this) ->
  - 2 ^ 31 <= v_item_count (arena_at st this) + 1 < 2 ^ 31 ->
  exists p st',
    Arena_alloc this st = Ret p st'
    /\ Arena_next this st' = Ret p st'
    /\ p = wrap64 (v_m_next (arena_at st this) + v_arenaSize (arena_at st this)).
Proof.
  intros Hm Hroom Hc.
  destruct (Arena_alloc_spec st this Hm Hroom Hc) as (st' & Hrun & Hat & Hv & _).
  eexists _, st'. split; [exact Hrun|]. split; [|reflexivity].
  unfold Arena_next.
  rewrite (load_size_t_ok st' this Layout.sizeof_Arena)
    by (try (now apply (object_mapped_same_vmas st));
        unfold Layout.m_next, Layout.sizeof_Arena; lia).
  f_equal. change (v_m_next (arena_at st' this) = wrap64
    (v_m_next (arena_at st this) + v_arenaSize (arena_at st this))).
  now rewrite Hat.
Qed.

Lemma Arena_next_after_alloc_witness :
  exists st1 p st',
    Arena_create 8 (initial [65536]) = Ret 65536 st1
    /\ Arena_alloc 65536 st1 = Ret p st'
    /\ Arena_next 65536 st' = Ret p st'
    /\ p = 65584.
Proof.
  destruct (Arena_create_spec (initial [65536]) 8 65536 [])
    as (st1 & Hrun & Hm & Hat & _); [reflexivity | reflexivity | lia |].
  assert (Hm40 : object_mapped st1 65536 Layout.sizeof_Arena).
  { destruct Hm as (lo & hi & ? & ? & ? & ? & ?). exists lo, hi.
    unfold Layout.sizeof_Arena, pageSize in *. repeat split; auto; lia. }
  destruct (Arena_next_after_alloc st1 65536 Hm40) as (p & st' & Ha & Hn & Hp).
  - rewrite Hat. cbn [v_arenaSize v_size_remain]. unfold pageSize. lia.
  - rewrite Hat. cbn [v_item_count]. lia.
  - exists st1, p, st'. split; [exact Hrun|]. split; [exact Ha|].
    split; [exact Hn|]. rewrite Hp, Hat. reflexivity.
Defined.

(** X8: [alloc()] on a full arena returns null and changes nothing: not
    the count, not the cursor, no other part of the state. *)
Theorem Arena_alloc_on_full (st : state) (this : Z) :
  object_mapped st this Layout.sizeof_Arena ->
  v_arenaSize (arena_at st this) > v_size_remain (arena_at st this) ->
  Arena_full this st = Ret true st /\ Arena_alloc this st = Ret nullptr st.
Proof.
  intros Hm Hfull. split; [|now apply Arena_alloc_full].
  rewrite (Arena_full_spec st this Hm).
  now replace (_ >? _) with true by lia.
Qed.

Lemma Arena_alloc_on_full_witness :
  v_arenaSize (arena_at after_four_1024 65536) = 1024
  /\ v_size_remain (arena_at after_four_1024 65536) = 0
  /\ Arena_full 65536 after_four_1024 = Ret true after_four_1024
  /\ Arena_alloc 65536 after_four_1024 = Ret nullptr after_four_1024.
Proof.
  split; [reflexivity|]. split; [reflexivity|].
  apply (Arena_alloc_on_full after_four_1024 65536).
  - exists 65536, 69632. vm_compute. repeat split; try discriminate. now left.
  - reflexivity.
Defined.

(** ** What the methods of [Arena] leave alone *)

Section Header.
Context (this a : Z) (w' : nat).
Hypothesis Hthis : 0 <= this /\ this + Layout.sizeof_Arena <= 2 ^ 64.
Hypothesis Hrange : this <= a /\ a + Z.of_nat w' <= this + Layout.sizeof_MMapObject.

Lemma keeps_range_store (w : nat) off v :
  Layout.sizeof_MMapObject <= off -> off + Z.of_nat w <= Layout.sizeof_Arena ->
  (0 < w)%nat ->
  keeps (member_bytes a w') (store w (wrap64 (this + off)) v).
Proof.
  pose proof Hthis as [H0 H1]. pose proof Hrange as [H2 H3].
  unfold Layout.sizeof_MMapObject, Layout.sizeof_Arena in *. intros Hoff Hfit Hw st.
  rewrite wrap64_small by lia.
  unfold store. destruct (accessible st (this + off) w); [|reflexivity].
  unfold member_bytes. cbn [final_state bytes with_bytes].
  apply load_store_other. lia.
Qed.

Lemma keeps_range_Arena_alloc : keeps (member_bytes a w') (Arena_alloc this).
Proof.
  pose proof (fun v => keeps_range_store 8 Layout.size_remain v
                         ltac:(unfold Layout.sizeof_MMapObject, Layout.size_remain; lia)
                         ltac:(unfold Layout.sizeof_Arena, Layout.size_remain; lia)
                         ltac:(lia)) as H24.
  pose proof (fun v => keeps_range_store 8 Layout.m_next v
                         ltac:(unfold Layout.sizeof_MMapObject, Layout.m_next; lia)
                         ltac:(unfold Layout.sizeof_Arena, Layout.m_next; lia)
                         ltac:(lia)) as H32.
  pose proof (fun v => keeps_range_store 4 Layout.item_count v
                         ltac:(unfold Layout.sizeof_MMapObject, Layout.item_count; lia)
                         ltac:(unfold Layout.sizeof_Arena, Layout.item_count; lia)
                         ltac:(lia)) as H16.
  unfold Arena_alloc, Arena_full, arenaSize, load_size_t, load_int, store_size_t, store_int.
  auto 30 with frame.
Qed.

Lemma keeps_range_Arena_free : keeps (member_bytes a w') (Arena_free this).
Proof.
  pose proof (fun v => keeps_range_store 4 Layout.item_count v
                         ltac:(unfold Layout.sizeof_MMapObject, Layout.item_count; lia)
                         ltac:(unfold Layout.sizeof_Arena, Layout.item_count; lia)
                         ltac:(lia)) as H16.
  unfold Arena_free, Arena_full, arenaSize, load_size_t, load_int, store_size_t, store_int.
  auto 30 with frame.
Qed.
End Header.

Lemma keeps_header_Arena_alloc this :
  0 <= this /\ this + Layout.sizeof_Arena <= 2 ^ 64 ->
  keeps (header_bytes this) (Arena_alloc this).
Proof.
  intros Hthis. apply (keeps_range_Arena_alloc this this 16 Hthis).
  unfold Layout.sizeof_MMapObject. lia.
Qed.

Lemma keeps_header_Arena_free this :
  0 <= this /\ this + Layout.sizeof_Arena <= 2 ^ 64 ->
  keeps (header_bytes this) (Arena_free this).
Proof.
  intros Hthis. apply (keeps_range_Arena_free this this 16 Hthis).
  unfold Layout.sizeof_MMapObject. lia.
Qed.

Lemma keeps_counter_store w a v : keeps outstandingPages (store w a v).
Proof. intros st. unfold store. destruct (accessible st a w); reflexivity. Qed.

Lemma keeps_counter_Arena_alloc this : keeps outstandingPages (Arena_alloc this).
Proof.
  pose proof keeps_counter_store as Hs.
  unfold Arena_alloc, Arena_full, arenaSize, load_size_t, load_int, store_size_t, store_int.
  auto 30 with frame.
Qed.

Lemma keeps_counter_Arena_free this : keeps outstandingPages (Arena_free this).
Proof.
  pose proof keeps_counter_store as Hs.
  unfold Arena_free, Arena_full, arenaSize, load_size_t, load_int, store_size_t, store_int.
  auto 30 with frame.
Qed.

(** X9: [Arena::alloc] and [Arena::free] never write the [MMapObject]
    members of their arena (the recorded mapping size and item size keep
    their bytes) and never map or unmap anything, however the call ends.
    When the arena lies in a mapped Region, they change neither the counter
    of outstanding pages nor the table of arenas. *)
Theorem Arena_methods_frame (this : Z) (st : state) :
  0 <= this -> this + Layout.sizeof_Arena <= 2 ^ 64 ->
  let after_alloc := final_state (Arena_alloc this st) in
  let after_free := final_state (Arena_free this st) in
  header_bytes this after_alloc = header_bytes this st
  /\ header_bytes this after_free = header_bytes this st
  /\ vmas after_alloc = vmas st /\ vmas after_free = vmas st
  /\ (object_mapped st this Layout.sizeof_Arena ->
      outstandingPages after_alloc = outstandingPages st
      /\ outstandingPages after_free = outstandingPages st
      /\ m_arenas after_alloc = m_arenas st /\ m_arenas after_free = m_arenas st).
Proof.
  intros H0 H1. cbv zeta.
  split; [apply keeps_header_Arena_alloc; now split|].
  split; [apply keeps_header_Arena_free; now split|].
  split; [apply (keeps_Arena_alloc vmas)|].
  split; [apply (keeps_Arena_free vmas)|].
  intros _.
  split; [apply keeps_counter_Arena_alloc|].
  split; [apply keeps_counter_Arena_free|].
  split; [apply (keeps_Arena_alloc m_arenas) | apply (keeps_Arena_free m_arenas)].
Qed.

Lemma Arena_methods_frame_witness :
  header_bytes 65536 (final_state (Arena_alloc 65536 after_malloc_2000))
  = header_bytes 65536 after_malloc_2000
  /\ header_bytes 65536 (final_state (Arena_free 65536 after_four_1024))
     = header_bytes 65536 after_four_1024
  /\ vmas (final_state (Arena_free 65536 after_four_1024)) = [(65536, 69632)]
  /\ m_arenas (final_state (Arena_free 65536 after_four_1024))
     = [0; 0; 0; 0; 0; 0; 0; 65536; 0]
  /\ outstandingPages (final_state (Arena_free 65536 after_four_1024)) = 1.
Proof.
  assert (Hm : object_mapped after_four_1024 65536 Layout.sizeof_Arena).
  { exists 65536, 69632. vm_compute. repeat split; try discriminate. now left. }
  destruct (Arena_methods_frame 65536 after_malloc_2000) as (H1 & _);
    [lia | unfold Layout.sizeof_Arena; lia |].
  destruct (Arena_methods_frame 65536 after_four_1024) as (_ & H2 & _ & H3 & H4);
    [lia | unfold Layout.sizeof_Arena; lia |].
  destruct (H4 Hm) as (_ & H5 & _ & H6).
  split; [exact H1|]. split; [exact H2|].
  split; [rewrite H3; vm_compute; reflexivity|].
  split; [rewrite H6 | rewrite H5]; vm_compute; reflexivity.
Defined.

(** X10: the slots that a fresh arena hands out lie after its members and
    do not overlap each other: each one starts at least [itemSize] bytes
    after the one before. *)
Theorem fresh_arena_slots_disjoint
    (st : state) (itemSize r : Z) (rest : list Z) (k : nat) :
  os_next st = r :: rest ->
  placement_ok (vmas st) r pageSize = true ->
  0 < itemSize < 2 ^ 32 ->
  Z.of_nat k * itemSize <= pageSize ->
  exists st1 st2 ps,
    Arena_create itemSize st = Ret r st1
    /\ Arena_alloc_many r k st1 = Ret ps st2
    /\ length ps = k
    /\ (forall (i : nat) p, ps !! i = Some p -> r + Layout.sizeof_Arena < p)
    /\ (forall (i j : nat) p q,
          (i < j)%nat -> ps !! i = Some p -> ps !! j = Some q -> p + itemSize <= q).
Proof.
  intros Hos Hok Hsize Hk.
  destruct (fresh_arena_run st itemSize r rest Hos Hok Hsize)
    as (st1 & Hrun & _ & _ & Hmany).
  destruct (Hmany k Hk) as (st2 & Hrun2 & _).
  exists st1, st2, (slots_after (r + Layout.Arena_m_data) itemSize k).
  split; [exact Hrun|]. split; [exact Hrun2|].
  split; [apply slots_after_length|]. split.
  - intros i p Hp.
    assert (Hlt : (i < k)%nat).
    { apply lookup_lt_Some in Hp. now rewrite slots_after_length in Hp. }
    rewrite slots_after_lookup in Hp by exact Hlt. injection Hp as <-.
    unfold Layout.sizeof_Arena, Layout.Arena_m_data. nia.
  - intros i j p q Hij Hp Hq.
    assert (Hlt : (j < k)%nat).
    { apply lookup_lt_Some in Hq. now rewrite slots_after_length in Hq. }
    rewrite slots_after_lookup in Hp, Hq by lia.
    injection Hp as <-. injection Hq as <-. nia.
Qed.

Lemma fresh_arena_slots_disjoint_witness :
  exists st1 st2 ps,
    Arena_create 16 (initial [65536]) = Ret 65536 st1
    /\ Arena_alloc_many 65536 3 st1 = Ret ps st2
    /\ length ps = 3%nat
    /\ ps = [65592; 65608; 65624].
Proof.
  destruct (fresh_arena_slots_disjoint (initial [65536]) 16 65536 [] 3)
    as (st1 & st2 & ps & H1 & H2 & H3 & _);
    [reflexivity | reflexivity | lia | unfold pageSize; lia |].
  exists st1, st2, ps. split; [exact H1|]. split; [exact H2|]. split; [exact H3|].
  destruct (fresh_arena_run (initial [65536]) 16 65536 [])
    as (st1' & H1' & _ & _ & Hmany); [reflexivity | reflexivity | lia |].
  destruct (Hmany 3%nat) as (st2' & H2' & _); [unfold pageSize; lia|].
  assert (st1' = st1) by congruence. subst st1'.
  rewrite H2 in H2'. injection H2' as -> _. reflexivity.
Defined.

(** ** The dispatcher on the arena path *)

Lemma get_arena_ok st idx p :
  0 <= idx -> m_arenas st !! Z.to_nat idx = Some p -> get_arena idx st = Ret p st.
Proof.
  intros Hidx Hp. unfold get_arena.
  replace (0 <=? idx) with true by lia. now rewrite Hp.
Qed.

Lemma set_arena_ok st idx p q :
  0 <= idx -> m_arenas st !! Z.to_nat idx = Some q ->
  set_arena idx p st = Ret tt (with_arenas (<[Z.to_nat idx := p]> (m_arenas st)) st).
Proof.
  intros Hidx Hq. unfold set_arena. apply lookup_lt_Some in Hq.
  replace ((0 <=? idx) && (idx <? Z.of_nat (length (m_arenas st)))) with true by lia.
  reflexivity.
Qed.

Lemma classify_class_range n :
  0 <= n <= 1024 -> 8 <= fst (classify n) <= 1024 /\ n <= fst (classify n).
Proof.
  intros Hn. pose proof (class_ok_small n Hn) as H. unfold class_ok in H.
  destruct (classify n) as [c idx]. cbn [fst].
  repeat (apply andb_prop in H; destruct H as [H ?]).
  assert (c = class_size idx) by lia. assert (0 <= idx <= 7) by lia.
  unfold class_size in *.
  assert (2 ^ 3 <= 2 ^ (idx + 3)) by (apply Z.pow_le_mono_r; lia).
  lia.
Qed.

(** [ArenaStore::alloc] when the entry of the class is null and the kernel
    places a page at [r]. *)
Lemma myMalloc_fresh_spec st n r rest :
  0 <= n <= 1024 ->
  m_arenas st !! Z.to_nat (snd (classify n)) = Some nullptr ->
  os_next st = r :: rest ->
  placement_ok (vmas st) r pageSize = true ->
  exists st',
    myMalloc n st = Ret (r + Layout.Arena_m_data + fst (classify n)) st'
    /\ m_arenas st' = <[Z.to_nat (snd (classify n)) := r]> (m_arenas st)
    /\ object_mapped st' r Layout.sizeof_Arena
    /\ arena_at st' r
       = mkArena (fst (classify n)) 1 (pageSize - fst (classify n))
                 (r + Layout.Arena_m_data + fst (classify n))
    /\ load_bytes (bytes st') (r + Layout.m_mmapSize) 8 = pageSize
    /\ vmas st' = (r, r + pageSize) :: vmas st
    /\ os_next st' = rest
    /\ s_outstandingPages st' = wrap64 (s_outstandingPages st + 1).
Proof.
  intros Hn Hcur Hos Hok.
  pose proof (classify_index_range n ltac:(lia)) as Hidx.
  pose proof (classify_class_range n Hn) as [Hc _].
  destruct (placement_ok_inv _ _ _ Hok) as (_ & _ & Hmin & Hmax).
  unfold mmap_min_addr, TASK_SIZE, pageSize in Hmin, Hmax.
  unfold myMalloc, ArenaStore_alloc.
  replace (n >? 1024) with false by lia.
  destruct (classify n) as [c idx]. cbn [fst snd] in *.
  unfold bind at 1. rewrite (get_arena_ok st idx nullptr) by (auto; lia).
  change (nullptr =? nullptr) with true. cbv iota.
  destruct (Arena_create_spec st c r rest Hos Hok ltac:(lia))
    as (st1 & Hrun & Hm & Hat & Hsz & Hv & Hnext & Htab & Hcnt).
  unfold bind at 1 2. rewrite Hrun.
  rewrite (set_arena_ok st1 idx r nullptr) by (rewrite ?Htab; auto; lia).
  set (st2 := with_arenas _ st1).
  assert (Hget : get_arena idx st2 = Ret r st2).
  { apply get_arena_ok; [lia|]. unfold st2. cbn [m_arenas with_arenas].
    apply list_lookup_insert_eq. rewrite Htab. now apply lookup_lt_Some in Hcur. }
  unfold bind at 1. rewrite Hget.
  assert (Hm2 : object_mapped st2 r Layout.sizeof_Arena).
  { destruct Hm as (lo & hi & ? & ? & ? & ? & ?). exists lo, hi.
    unfold Layout.sizeof_Arena, pageSize in *. repeat split; auto; lia. }
  assert (Hat2 : arena_at st2 r = mkArena c 0 pageSize (r + Layout.Arena_m_data))
    by exact Hat.
  destruct (Arena_alloc_spec st2 r Hm2) as (st3 & Hrun3 & Hat3 & Hv3 & Ht3 & Ho3 & Hos3);
    rewrite Hat2 in *; cbn [v_arenaSize v_size_remain v_item_count v_m_next] in *;
    try (unfold pageSize; lia).
  assert (Hsz3 : load_bytes (bytes st3) (r + Layout.m_mmapSize) 8 = pageSize).
  { pose proof (keeps_range_Arena_alloc r (r + Layout.m_mmapSize) 8
                  ltac:(unfold Layout.sizeof_Arena; lia)
                  ltac:(unfold Layout.m_mmapSize, Layout.sizeof_MMapObject; lia) st2)
      as Hkeep.
    rewrite Hrun3 in Hkeep. cbn [final_state] in Hkeep.
    unfold member_bytes in Hkeep. rewrite Hkeep. exact Hsz. }
  unfold Layout.Arena_m_data, pageSize in *.
  rewrite (wrap64_small (r + 40 + c)) in Hrun3, Hat3 by lia.
  rewrite (wrap64_small (4096 - c)) in Hat3 by lia.
  unfold bind at 1. rewrite Hrun3.
  replace (r + 40 + c =? nullptr) with false by (unfold nullptr; lia).
  rewrite bind_ret. exists st3. split; [reflexivity|].
  split; [rewrite Ht3; unfold st2; cbn [m_arenas with_arenas]; now rewrite Htab|].
  split; [now apply (object_mapped_same_vmas st2)|].
  split; [exact Hat3|].
  split; [exact Hsz3|].
  split; [rewrite Hv3; exact Hv|].
  split; [rewrite Hos3; exact Hnext|].
  rewrite Ho3. exact Hcnt.
Qed.

(** [ArenaStore::alloc] when the entry of the class is an arena with room. *)
Lemma myMalloc_current_spec st n this :
  n <= 1024 ->
  m_arenas st !! Z.to_nat (snd (classify n)) = Some this ->
  this <> nullptr ->
  object_mapped st this Layout.sizeof_Arena ->
  let v := arena_at st this in
  v_arenaSize v <= v_size_remain v ->
  - 2 ^ 31 <= v_item_count v + 1 < 2 ^ 31 ->
  wrap64 (v_m_next v + v_arenaSize v) <> nullptr ->
  exists st',
    myMalloc n st = Ret (wrap64 (v_m_next v + v_arenaSize v)) st'
    /\ arena_at st' this
       = mkArena (v_arenaSize v) (v_item_count v + 1)
                 (wrap64 (v_size_remain v - v_arenaSize v))
                 (wrap64 (v_m_next v + v_arenaSize v))
    /\ m_arenas st' = m_arenas st /\ vmas st' = vmas st
    /\ os_next st' = os_next st
    /\ s_outstandingPages st' = s_outstandingPages st.
Proof.
  intros Hn Hcur Hnn Hm v Hroom Hc Hres.
  pose proof (classify_index_range n Hn) as Hidx.
  unfold myMalloc, ArenaStore_alloc.
  replace (n >? 1024) with false by lia.
  destruct (classify n) as [c idx]. cbn [fst snd] in *.
  unfold bind at 1. rewrite (get_arena_ok st idx this) by (auto; lia).
  replace (this =? nullptr) with false by (unfold nullptr in *; lia).
  rewrite bind_ret. unfold bind at 1. rewrite (get_arena_ok st idx this) by (auto; lia).
  destruct (Arena_alloc_spec st this Hm Hroom Hc) as (st' & Hrun & Hat & Hv & Ht & Ho & Hos).
  fold v in Hrun, Hat.
  unfold bind at 1. rewrite Hrun.
  replace (wrap64 (v_m_next v + v_arenaSize v) =? nullptr) with false
    by (unfold nullptr in *; lia).
  rewrite bind_ret. exists st'. repeat split; assumption.
Qed.

(** X11: the first request of a class (its table entry is null) creates the
    arena lazily: when the kernel places a page at [r], [myMalloc] stores
    [r] in the entry of the class and in no other entry, counts one more
    outstanding page, and returns the address one item size into the data
    area of that page; the page records the class size as its item size and
    [pageSize] as its mapping size. *)
Theorem myMalloc_creates_arena (st : state) (n r : Z) (rest : list Z) :
  0 <= n <= 1024 ->
  m_arenas st !! Z.to_nat (snd (classify n)) = Some nullptr ->
  os_next st = r :: rest ->
  placement_ok (vmas st) r pageSize = true ->
  exists st',
    myMalloc n st = Ret (r + Layout.Arena_m_data + fst (classify n)) st'
    /\ m_arenas st' !! Z.to_nat (snd (classify n)) = Some r
    /\ (forall j : nat,
          j <> Z.to_nat (snd (classify n)) -> m_arenas st' !! j = m_arenas st !! j)
    /\ arenaSize r st' = Ret (fst (classify n)) st'
    /\ mmapSize r st' = Ret pageSize st'
    /\ outstandingPages st' = wrap64 (outstandingPages st + 1)
    /\ vmas st' = (r, r + pageSize) :: vmas st.
Proof.
  intros Hn Hcur Hos Hok.
  destruct (myMalloc_fresh_spec st n r rest Hn Hcur Hos Hok)
    as (st' & Hrun & Htab & Hm & Hat & Hsz & Hv & _ & Hcnt).
  exists st'. split; [exact Hrun|].
  split; [rewrite Htab; apply list_lookup_insert_eq; now apply lookup_lt_Some in Hcur|].
  split; [intros j Hj; rewrite Htab; apply list_lookup_insert_ne; congruence|].
  split.
  { unfold arenaSize.
    rewrite (load_size_t_ok st' r Layout.sizeof_Arena)
      by (auto; unfold Layout.m_arenaSize, Layout.sizeof_Arena; lia).
    f_equal. change (v_arenaSize (arena_at st' r) = fst (classify n)).
    now rewrite Hat. }
  split; [|split; assumption].
  unfold mmapSize.
  rewrite (load_size_t_ok st' r Layout.sizeof_Arena)
    by (auto; unfold Layout.m_mmapSize, Layout.sizeof_Arena; lia).
  now rewrite Hsz.
Qed.

Lemma myMalloc_creates_arena_witness :
  exists st',
    myMalloc 100 (initial [65536]) = Ret (65536 + 40 + 128) st'
    /\ m_arenas st' !! 4%nat = Some 65536
    /\ m_arenas st' !! 3%nat = Some nullptr
    /\ arenaSize 65536 st' = Ret 128 st'
    /\ outstandingPages st' = 1.
Proof.
  destruct (myMalloc_creates_arena (initial [65536]) 100 65536 [])
    as (st' & H1 & H2 & H3 & H4 & _ & H6 & _);
    [lia | reflexivity | reflexivity | reflexivity |].
  exists st'. split; [exact H1|]. split; [exact H2|].
  split; [rewrite (H3 3%nat); [reflexivity | discriminate]|].
  split; [exact H4 | exact H6].
Defined.

(** X12: while the current arena of a class has room, a request of the
    class is served from it: [myMalloc] returns the cursor advanced by the
    item size of that arena, and makes no system call (the mappings, the
    kernel and the counter of outstanding pages are as before) and no change
    to the table. *)
Theorem myMalloc_from_current_arena (st : state) (n this : Z) :
  n <= 1024 ->
  m_arenas st !! Z.to_nat (snd (classify n)) = Some this ->
  this <> nullptr ->
  object_mapped st this Layout.sizeof_Arena ->
  v_arenaSize (arena_at st this) <= v_size_remain (arena_at st this) ->
  0 <= v_item_count (arena_at st this) < 2 ^ 31 - 1 ->
  wrap64 (v_m_next (arena_at st this) + v_arenaSize (arena_at st this)) <> nullptr ->
  exists st',
    myMalloc n st
    = Ret (wrap64 (v_m_next (arena_at st this) + v_arenaSize (arena_at st this))) st'
    /\ v_item_count (arena_at st' this) = v_item_count (arena_at st this) + 1
    /\ m_arenas st' = m_arenas st /\ vmas st' = vmas st
    /\ os_next st' = os_next st
    /\ outstandingPages st' = outstandingPages st.
Proof.
  intros Hn Hcur Hnn Hm Hroom Hc Hres.
  destruct (myMalloc_current_spec st n this Hn Hcur Hnn Hm Hroom ltac:(lia) Hres)
    as (st' & Hrun & Hat & Ht & Hv & Hos & Ho).
  exists st'. split; [exact Hrun|]. split; [now rewrite Hat|].
  repeat split; assumption.
Qed.

Lemma myMalloc_from_current_arena_witness :
  exists st1 st2,
    myMalloc 100 (initial [65536]) = Ret 65704 st1
    /\ myMalloc 65 st1 = Ret 65832 st2
    /\ vmas st2 = vmas st1 /\ outstandingPages st2 = outstandingPages st1.
Proof.
  destruct (myMalloc_fresh_spec (initial [65536]) 100 65536 [])
    as (st1 & H1 & Htab & Hm & Hat & _);
    [lia | reflexivity | reflexivity | reflexivity |].
  destruct (myMalloc_from_current_arena st1 65 65536)
    as (st2 & H2 & _ & _ & Hv & _ & Ho).
  - lia.
  - rewrite Htab. reflexivity.
  - discriminate.
  - exact Hm.
  - rewrite Hat. vm_compute. discriminate.
  - rewrite Hat. vm_compute. split; [discriminate | reflexivity].
  - rewrite Hat. vm_compute. discriminate.
  - exists st1, st2. split; [exact H1|].
    split; [rewrite H2, Hat; reflexivity|]. split; assumption.
Defined.

(** Requests of one class while the current arena has room for them. *)
Lemma malloc_many_current this n (k : nat) :
  forall st s c rem nx,
    n <= 1024 ->
    m_arenas st !! Z.to_nat (snd (classify n)) = Some this ->
    this <> nullptr ->
    object_mapped st this Layout.sizeof_Arena ->
    arena_at st this = mkArena s c rem nx ->
    0 < s -> Z.of_nat k * s <= rem < 2 ^ 64 ->
    0 <= c -> c + Z.of_nat k < 2 ^ 31 ->
    0 <= nx -> nx + Z.of_nat k * s < 2 ^ 64 ->
    exists st',
      malloc_many k n st = Ret (slots_after nx s k) st'
      /\ arena_at st' this
         = mkArena s (c + Z.of_nat k) (rem - Z.of_nat k * s) (nx + Z.of_nat k * s)
      /\ m_arenas st' = m_arenas st /\ vmas st' = vmas st
      /\ os_next st' = os_next st
      /\ s_outstandingPages st' = s_outstandingPages st.
Proof.
  induction k as [|k IH]; intros st s c rem nx Hn Hcur Hnn Hm Hat Hs Hrem Hc Hck Hnx Hfit.
  - exists st. cbn [malloc_many]. rewrite Hat. repeat split. f_equal; lia.
  - destruct (myMalloc_current_spec st n this Hn Hcur Hnn Hm)
      as (st1 & Hrun & Hat1 & Ht & Hv & Hos & Ho);
      rewrite Hat in *; cbn [v_arenaSize v_size_remain v_item_count v_m_next] in *;
      try lia.
    { rewrite wrap64_small by nia. unfold nullptr. lia. }
    rewrite (wrap64_small (rem - s)), (wrap64_small (nx + s)) in Hat1 by nia.
    rewrite wrap64_small in Hrun by nia.
    destruct (IH st1 s (c + 1) (rem - s) (nx + s))
      as (st2 & Hrun2 & Hat2 & Ht2 & Hv2 & Hos2 & Ho2);
      try assumption; try nia.
    { now rewrite Ht. }
    { now apply (object_mapped_same_vmas st). }
    exists st2. cbn [malloc_many]. unfold bind at 1. rewrite Hrun.
    unfold bind at 1. rewrite Hrun2. rewrite slots_after_S.
    split; [reflexivity|]. split; [|repeat split; congruence].
    rewrite Hat2. f_equal; lia.
Qed.

(** X13: starting with a null table entry, the first [k] requests of a
    class, as long as [k] items do not exceed [pageSize], are all served
    from one page: one mapping and one outstanding page more, and the
    pointers are the addresses that follow the data area at distance the
    class size. *)
Theorem malloc_many_one_page (st : state) (n r : Z) (rest : list Z) (k : nat) :
  0 <= n <= 1024 ->
  m_arenas st !! Z.to_nat (snd (classify n)) = Some nullptr ->
  os_next st = r :: rest ->
  placement_ok (vmas st) r pageSize = true ->
  (1 <= k)%nat -> Z.of_nat k * fst (classify n) <= pageSize ->
  exists st',
    malloc_many k n st
    = Ret (slots_after (r + Layout.Arena_m_data) (fst (classify n)) k) st'
    /\ v_item_count (arena_at st' r) = Z.of_nat k
    /\ vmas st' = (r, r + pageSize) :: vmas st
    /\ os_next st' = rest
    /\ outstandingPages st' = wrap64 (outstandingPages st + 1).
Proof.
  intros Hn Hcur Hos Hok Hk1 Hk.
  pose proof (classify_class_range n Hn) as [Hc _].
  destruct (placement_ok_inv _ _ _ Hok) as (_ & _ & Hmin & Hmax).
  unfold mmap_min_addr, TASK_SIZE, pageSize in Hmin, Hmax, Hk.
  destruct (myMalloc_fresh_spec st n r rest Hn Hcur Hos Hok)
    as (st1 & Hrun & Htab & Hm & Hat & _ & Hv & Hnext & Hcnt).
  destruct k as [|k]; [lia|].
  destruct (malloc_many_current r n k st1 _ _ _ _ ltac:(lia)
              ltac:(rewrite Htab; apply list_lookup_insert_eq;
                    now apply lookup_lt_Some in Hcur)
              ltac:(unfold nullptr; lia) Hm Hat)
    as (st2 & Hrun2 & Hat2 & _ & Hv2 & Hos2 & Ho2);
    unfold pageSize, Layout.Arena_m_data; try nia.
  exists st2. cbn [malloc_many]. unfold bind at 1. rewrite Hrun.
  unfold bind at 1. rewrite Hrun2. rewrite slots_after_S.
  split; [reflexivity|]. split; [rewrite Hat2; cbn [v_item_count]; lia|].
  split; [rewrite Hv2, Hv; reflexivity|]. split; [congruence|].
  unfold outstandingPages. congruence.
Qed.

Lemma malloc_many_one_page_witness :
  exists st',
    malloc_many 3 20 (initial [65536]) = Ret [65608; 65640; 65672] st'
    /\ v_item_count (arena_at st' 65536) = 3
    /\ vmas st' = [(65536, 69632)]
    /\ outstandingPages st' = 1.
Proof.
  destruct (malloc_many_one_page (initial [65536]) 20 65536 [] 3)
    as (st' & H1 & H2 & H3 & _ & H5);
    [lia | reflexivity | reflexivity | reflexivity | lia | vm_compute; discriminate |].
  exists st'. repeat split; assumption.
Defined.

(** ** When [mmap] fails, and stale table entries *)

Lemma MMapObject_alloc_killed size arenaSize0 st :
  mmap_fails size st = true ->
  exists st',
    MMapObject_alloc size arenaSize0 st = Killed SIGSEGV st'
    /\ m_arenas st' = m_arenas st.
Proof.
  intros Hfail. unfold MMapObject_alloc, bind at 1. unfold outstanding_incr.
  set (st1 := with_outstanding _ st).
  unfold mmap_fails in Hfail. unfold bind at 1, mmap.
  change (os_next st1) with (os_next st). change (vmas st1) with (vmas st).
  destruct (os_next st) as [|r rest].
  - unfold bind at 1, load_int, bind at 1.
    rewrite load_outside by reflexivity. now exists st1.
  - apply negb_true_iff in Hfail. rewrite Hfail.
    unfold bind at 1, load_int, bind at 1.
    rewrite load_outside by reflexivity. now eexists.
Qed.

(** X14: when the kernel cannot map, [myMalloc] does not return null: a
    request above 1024 bytes, and a request of a class whose table entry is
    null, both end with the process killed by [SIGSEGV] (the read through
    [MAP_FAILED] in [MMapObject::alloc]). *)
Theorem myMalloc_out_of_memory (n : Z) (st : state) :
  (1024 < n /\ mmap_fails n st = true)
  \/ (n <= 1024 /\ m_arenas st !! Z.to_nat (snd (classify n)) = Some nullptr
      /\ mmap_fails pageSize st = true) ->
  exists st', myMalloc n st = Killed SIGSEGV st' /\ m_arenas st' = m_arenas st.
Proof.
  unfold myMalloc, ArenaStore_alloc. intros [[Hn Hfail]|(Hn & Hcur & Hfail)].
  - replace (n >? 1024) with true by lia.
    destruct (MMapObject_alloc_killed n 0 st Hfail) as (st' & Hrun & Ht).
    exists st'. unfold BigAlloc_alloc, bind. now rewrite Hrun.
  - replace (n >? 1024) with false by lia.
    pose proof (classify_index_range n Hn) as Hidx.
    destruct (classify n) as [c idx]. cbn [fst snd] in *.
    unfold bind at 1. rewrite (get_arena_ok st idx nullptr) by (auto; lia).
    change (nullptr =? nullptr) with true. cbv iota.
    destruct (MMapObject_alloc_killed pageSize (wrap32 c) st Hfail) as (st' & Hrun & Ht).
    exists st'. unfold bind at 1 2, Arena_create, bind at 1. now rewrite Hrun.
Qed.

Lemma myMalloc_out_of_memory_witness :
  (exists st', myMalloc 5000 (initial []) = Killed SIGSEGV st')
  /\ (exists st', myMalloc 8 (initial []) = Killed SIGSEGV st').
Proof.
  split.
  - destruct (myMalloc_out_of_memory 5000 (initial [])) as (st' & H & _).
    + left. split; [lia | reflexivity].
    + now exists st'.
  - destruct (myMalloc_out_of_memory 8 (initial [])) as (st' & H & _).
    + right. split; [lia|]. split; reflexivity.
    + now exists st'.
Defined.

(** X15: [ArenaStore::alloc] trusts a non-null table entry: when the entry
    of the class points to memory that is not mapped (an arena that was
    released while it was still the current one), the request ends with the
    process killed by [SIGSEGV], and no arena is created. *)
Theorem myMalloc_stale_entry (n this : Z) (st : state) :
  n <= 1024 ->
  m_arenas st !! Z.to_nat (snd (classify n)) = Some this ->
  this <> nullptr ->
  accessible st (wrap64 (this + Layout.m_arenaSize)) 8 = false ->
  myMalloc n st = Killed SIGSEGV st.
Proof.
  intros Hn Hcur Hnn Hacc.
  pose proof (classify_index_range n Hn) as Hidx.
  unfold myMalloc, ArenaStore_alloc.
  replace (n >? 1024) with false by lia.
  destruct (classify n) as [c idx]. cbn [fst snd] in *.
  unfold bind at 1. rewrite (get_arena_ok st idx this) by (auto; lia).
  replace (this =? nullptr) with false by (unfold nullptr in *; lia).
  rewrite bind_ret. unfold bind at 1. rewrite (get_arena_ok st idx this) by (auto; lia).
  unfold bind at 1, Arena_alloc, bind at 1, Arena_full, bind at 1, arenaSize,
    load_size_t, load.
  now rewrite Hacc.
Qed.

Lemma myMalloc_stale_entry_witness :
  returned (free_many 4 65536 after_four_1024) = Some tt
  /\ vmas after_drain = []
  /\ outstandingPages after_drain = 0
  /\ m_arenas after_drain !! 7%nat = Some 65536
  /\ os_next after_drain = [131072]
  /\ myMalloc 1024 after_drain = Killed SIGSEGV after_drain.
Proof.
  split; [reflexivity|]. split; [reflexivity|]. split; [reflexivity|].
  split; [reflexivity|]. split; [reflexivity|].
  apply (myMalloc_stale_entry 1024 65536 after_drain).
  - lia.
  - reflexivity.
  - discriminate.
  - reflexivity.
Defined.

(** ** [ArenaStore::free] *)

#[export] Instance os_next_frame : Frame os_next.
Proof. split; reflexivity. Qed.

Lemma keeps_os_next_munmap a len : keeps os_next (munmap a len).
Proof. intros st. unfold munmap. destruct (_ || _); reflexivity. Qed.

Lemma keeps_os_next_free ptr : keeps os_next (ArenaStore_free ptr).
Proof.
  pose proof keeps_os_next_munmap as Hun.
  unfold ArenaStore_free, MMapObject_dealloc. keeps_unfold.
Qed.

(** X16: [myFree] never asks the kernel for memory, whatever pointer it is
    given and however it ends; and given a pointer into a mapped Region (the
    forty bytes it may touch there are mapped) it does not write the table of
    arenas.  In particular it does not clear the entry of an arena that it
    releases. *)
Theorem myFree_leaves_table (ptr : Z) (st : state) :
  os_next (final_state (myFree ptr st)) = os_next st
  /\ (object_mapped st ptr Layout.sizeof_Arena ->
      m_arenas (final_state (myFree ptr st)) = m_arenas st).
Proof.
  split; [apply keeps_os_next_free | intros _; apply keeps_ArenaStore_free].
Qed.

Lemma myFree_leaves_table_witness :
  os_next (final_state (myFree 65536 after_three_frees)) = [131072]
  /\ vmas (final_state (myFree 65536 after_three_frees)) = []
  /\ m_arenas (final_state (myFree 65536 after_three_frees))
     = [0; 0; 0; 0; 0; 0; 0; 65536; 0].
Proof.
  assert (Hm : object_mapped after_three_frees 65536 Layout.sizeof_Arena).
  { exists 65536, 69632. vm_compute. repeat split; try discriminate. now left. }
  destruct (myFree_leaves_table 65536 after_three_frees) as [H1 H2].
  split; [rewrite H1; vm_compute; reflexivity|].
  split; [vm_compute; reflexivity|].
  rewrite (H2 Hm). vm_compute. reflexivity.
Defined.

(** X17: a large Region is released by [myFree] when it is given the
    address of the Region's header (the pointer that [BigAlloc::alloc]
    returned, less [sizeof(BigAlloc)]): the call returns, the counter is
    back to its value and the same addresses are mapped as before the
    allocation. *)
Theorem BigAlloc_free_header_round_trip (st : state) (size r : Z) (rest : list Z) :
  os_next st = r :: rest ->
  placement_ok (vmas st) r (page_align size) = true ->
  0 <= size < 2 ^ 64 ->
  0 <= s_outstandingPages st < 2 ^ 64 - 1 ->
  exists p st1 st2,
    BigAlloc_alloc size st = Ret p st1
    /\ p = r + Layout.sizeof_BigAlloc
    /\ myFree (p - Layout.sizeof_BigAlloc) st1 = Ret tt st2
    /\ outstandingPages st2 = outstandingPages st
    /\ (forall a, mapped (vmas st2) a = mapped (vmas st) a).
Proof.
  intros Hos Hok Hsize Hcnt.
  destruct (placement_ok_inv _ _ _ Hok) as (Hlen & Hal & Hmin & Hmax).
  destruct (page_align_covers size Hlen) as [Hpage Hcov].
  destruct (MMapObject_alloc_spec st size 0 r rest Hos Hok)
    as (st1 & Hrun & Hv & _ & Ht & Hc & Hsz & Hasz & _).
  assert (Hm : object_mapped st1 r Layout.sizeof_MMapObject).
  { exists r, (r + page_align size). rewrite Hv.
    unfold Layout.sizeof_MMapObject, pageSize in *.
    repeat split; [now left|lia..]. }
  assert (Hpos : 0 < size).
  { unfold page_align, pageSize in Hlen.
    destruct (Z_lt_le_dec 0 size) as [|Hle]; [assumption|].
    assert (size = 0) by lia. subst size. vm_compute in Hlen. discriminate. }
  rewrite wrap64_small in Hsz by lia.
  unfold mmap_min_addr, TASK_SIZE, pageSize in Hmin, Hmax, Hpage.
  eexists (r + Layout.sizeof_BigAlloc), st1, _.
  split.
  { unfold BigAlloc_alloc, bind. rewrite Hrun.
    replace (r =? nullptr) with false by (unfold nullptr; lia).
    change (false || negb (Layout.sizeof_BigAlloc mod 8 =? 0)) with false. cbv iota.
    unfold ret. now rewrite wrap64_small by (unfold Layout.BigAlloc_m_data; lia). }
  split; [reflexivity|].
  replace (r + Layout.sizeof_BigAlloc - Layout.sizeof_BigAlloc) with r by lia.
  split.
  { unfold myFree, ArenaStore_free, arenaSize. cbv zeta.
    rewrite (bind_load_size_t st1 r Layout.sizeof_MMapObject Hm)
      by (unfold Layout.m_arenaSize, Layout.sizeof_MMapObject; lia).
    rewrite Hasz. change (wrap64 0 =? 0) with true. cbv iota.
    apply (MMapObject_dealloc_spec st1 r size); auto;
      first [ unfold TASK_SIZE, pageSize; lia
            | rewrite Hc; unfold wrap64; rewrite Z.mod_small; lia ]. }
  unfold outstandingPages. cbn [s_outstandingPages vmas with_vmas with_outstanding].
  split.
  - rewrite Hc. unfold wrap64. rewrite (Z.mod_small (_ + 1)) by lia.
    rewrite Z.mod_small; lia.
  - intros a. rewrite Hv. now apply mapped_round_trip.
Qed.

Lemma BigAlloc_free_header_round_trip_witness :
  exists st1 st2,
    BigAlloc_alloc 2000 (initial [65536]) = Ret 65552 st1
    /\ myFree 65536 st1 = Ret tt st2
    /\ outstandingPages st2 = 0
    /\ mapped (vmas st2) 65552 = false.
Proof.
  destruct (BigAlloc_free_header_round_trip (initial [65536]) 2000 65536 [])
    as (p & st1 & st2 & H1 & Hp & H2 & H3 & H4);
    [reflexivity | reflexivity | lia | cbn; lia |].
  subst p. exists st1, st2. split; [exact H1|]. split; [exact H2|].
  split; [exact H3|]. rewrite H4. reflexivity.
Defined.

(** [ArenaStore::free] given the address of an arena: the count goes down
    and the page is released when [Arena::free] says so. *)
Lemma myFree_arena_spec st this :
  object_mapped st this Layout.sizeof_Arena ->
  v_arenaSize (arena_at st this) <> 0 ->
  0 <= v_item_count (arena_at st this) < 2 ^ 31 ->
  exists st1,
    Arena_free this st
    = Ret ((Z.max 0 (v_item_count (arena_at st this) - 1) =? 0)
           && (v_arenaSize (arena_at st this) >? v_size_remain (arena_at st this))) st1
    /\ myFree this st
       = (if (Z.max 0 (v_item_count (arena_at st this) - 1) =? 0)
             && (v_arenaSize (arena_at st this) >? v_size_remain (arena_at st this))
          then MMapObject_dealloc this st1 else Ret tt st1)
    /\ v_item_count (arena_at st1 this) = Z.max 0 (v_item_count (arena_at st this) - 1)
    /\ load_bytes (bytes st1) (this + Layout.m_mmapSize) 8
       = load_bytes (bytes st) (this + Layout.m_mmapSize) 8
    /\ vmas st1 = vmas st /\ s_outstandingPages st1 = s_outstandingPages st.
Proof.
  intros Hm Hs Hc.
  destruct (Arena_free_spec st this Hm ltac:(lia))
    as (st1 & Hrun & Hat & Hv & _ & Ho & _).
  set (v := arena_at st this) in *.
  assert (Hc' : (if v_item_count v >? 0 then v_item_count v - 1 else v_item_count v)
                = Z.max 0 (v_item_count v - 1)).
  { destruct (Z.gtb_spec (v_item_count v) 0); lia. }
  rewrite Hc' in *.
  exists st1. split; [exact Hrun|]. split; [|split; [now rewrite Hat|split; [|auto]]].
  - unfold myFree, ArenaStore_free, arenaSize. cbv zeta.
    rewrite (bind_load_size_t st this Layout.sizeof_Arena Hm)
      by (unfold Layout.m_arenaSize, Layout.sizeof_Arena; lia).
    change (load_bytes (bytes st) (this + Layout.m_arenaSize) 8) with (v_arenaSize v).
    replace (v_arenaSize v =? 0) with false by (symmetry; now apply Z.eqb_neq).
    unfold bind. rewrite Hrun. destruct (_ && _); reflexivity.
  - destruct Hm as (lo & hi & _ & Hlo & Hhi & Hthis & Hend).
    unfold mmap_min_addr, TASK_SIZE, pageSize, Layout.sizeof_Arena in *.
    pose proof (keeps_range_Arena_free this (this + Layout.m_mmapSize) 8
                  ltac:(unfold Layout.sizeof_Arena; lia)
                  ltac:(unfold Layout.m_mmapSize, Layout.sizeof_MMapObject; lia) st)
      as Hkeep.
    rewrite Hrun in Hkeep. exact Hkeep.
Qed.

(** X18: [myFree] given the address of an arena that still holds other
    items, or that has room left, only takes one off the count: it
    returns, nothing is unmapped and the counter of outstanding pages is as
    before. *)
Theorem myFree_arena_not_drained (st : state) (this : Z) :
  object_mapped st this Layout.sizeof_Arena ->
  v_arenaSize (arena_at st this) <> 0 ->
  0 <= v_item_count (arena_at st this) < 2 ^ 31 ->
  1 < v_item_count (arena_at st this)
  \/ v_arenaSize (arena_at st this) <= v_size_remain (arena_at st this) ->
  exists st',
    myFree this st = Ret tt st'
    /\ v_item_count (arena_at st' this) = Z.max 0 (v_item_count (arena_at st this) - 1)
    /\ vmas st' = vmas st
    /\ outstandingPages st' = outstandingPages st.
Proof.
  intros Hm Hs Hc Hnot.
  destruct (myFree_arena_spec st this Hm Hs Hc) as (st1 & _ & Hrun & Hcnt & _ & Hv & Ho).
  exists st1. split; [|repeat split; assumption].
  rewrite Hrun.
  replace ((Z.max 0 (v_item_count (arena_at st this) - 1) =? 0)
           && (v_arenaSize (arena_at st this) >? v_size_remain (arena_at st this)))
    with false; [reflexivity|].
  symmetry. apply andb_false_iff. destruct Hnot as [Hmany|Hroom].
  - left. apply Z.eqb_neq. lia.
  - right. destruct (Z.gtb_spec (v_arenaSize (arena_at st this))
                                (v_size_remain (arena_at st this))); [lia|reflexivity].
Qed.

Lemma myFree_arena_not_drained_witness :
  exists st',
    myFree 65536 after_four_1024 = Ret tt st'
    /\ v_item_count (arena_at after_four_1024 65536) = 4
    /\ v_item_count (arena_at st' 65536) = 3
    /\ vmas st' = [(65536, 69632)]
    /\ outstandingPages st' = 1.
Proof.
  destruct (myFree_arena_not_drained after_four_1024 65536)
    as (st' & H1 & H2 & H3 & H4).
  - exists 65536, 69632. vm_compute. repeat split; try discriminate. now left.
  - vm_compute. discriminate.
  - vm_compute. split; [discriminate | reflexivity].
  - left. vm_compute. reflexivity.
  - exists st'. split; [exact H1|]. split; [reflexivity|].
    split; [rewrite H2; reflexivity|]. split; [rewrite H3 | rewrite H4]; reflexivity.
Defined.

(** X19: [myFree] given the page-aligned address of a full arena that holds
    its last item, and whose recorded mapping size lies within the Region it
    was given by the kernel, releases the arena: the call returns, the
    counter of outstanding pages is one lower, and the addresses still mapped
    are the ones outside the pages of the recorded mapping size. *)
Theorem myFree_arena_drained (st : state) (this len : Z) :
  load_bytes (bytes st) (this + Layout.m_mmapSize) 8 = len ->
  0 < len ->
  object_mapped st this (page_align len) ->
  v_arenaSize (arena_at st this) > v_size_remain (arena_at st this) ->
  v_arenaSize (arena_at st this) <> 0 ->
  0 <= v_item_count (arena_at st this) <= 1 ->
  this mod pageSize = 0 ->
  outstandingPages st <> 0 ->
  exists st',
    myFree this st = Ret tt st'
    /\ outstandingPages st' = wrap64 (outstandingPages st - 1)
    /\ (forall a,
          mapped (vmas st') a
          = mapped (vmas st) a && negb (in_range this (this + page_align len) a)).
Proof.
  intros Hlen Hpos Hregion Hfull Hs Hc Hal Hcnt. unfold outstandingPages in *.
  assert (Hcov : pageSize <= page_align len).
  { apply page_align_covers. unfold page_align, pageSize.
    assert (1 <= (len + 4096 - 1) / 4096) by (apply Z.div_le_lower_bound; lia). lia. }
  assert (Hmax : this + page_align len <= TASK_SIZE).
  { destruct Hregion as (lo & hi & _ & _ & ? & _ & ?). lia. }
  assert (Hm : object_mapped st this Layout.sizeof_Arena).
  { destruct Hregion as (lo & hi & ? & ? & ? & ? & ?). exists lo, hi.
    unfold Layout.sizeof_Arena, pageSize in *. repeat split; auto; lia. }
  destruct (myFree_arena_spec st this Hm Hs ltac:(lia))
    as (st1 & _ & Hrun & _ & Hsz & Hv & Ho).
  rewrite Hrun.
  replace ((Z.max 0 (v_item_count (arena_at st this) - 1) =? 0)
           && (v_arenaSize (arena_at st this) >? v_size_remain (arena_at st this)))
    with true.
  2:{ symmetry. apply andb_true_intro. split; [apply Z.eqb_eq; lia|].
      destruct (Z.gtb_spec (v_arenaSize (arena_at st this))
                           (v_size_remain (arena_at st this))); [reflexivity|lia]. }
  assert (Hm1 : object_mapped st1 this Layout.sizeof_MMapObject).
  { apply (object_mapped_same_vmas st); [exact Hv|].
    destruct Hm as (lo & hi & ? & ? & ? & ? & ?). exists lo, hi.
    unfold Layout.sizeof_Arena, Layout.sizeof_MMapObject in *. repeat split; auto; lia. }
  rewrite (MMapObject_dealloc_spec st1 this len); auto; try congruence.
  eexists. split; [reflexivity|].
  cbn [s_outstandingPages vmas with_vmas with_outstanding].
  split; [now rewrite Ho|].
  intros a. rewrite Hv. apply mapped_after_cut.
  pose proof (page_align_nonneg len ltac:(lia)). lia.
Qed.

Lemma myFree_arena_drained_witness :
  exists st4,
    free_many 3 65536 after_four_1024 = Ret tt after_three_frees
    /\ v_item_count (arena_at after_three_frees 65536) = 1
    /\ myFree 65536 after_three_frees = Ret tt st4
    /\ outstandingPages st4 = 0
    /\ mapped (vmas after_three_frees) 65536 = true
    /\ mapped (vmas st4) 65536 = false.
Proof.
  destruct (myFree_arena_drained after_three_frees 65536 4096) as (st4 & H1 & H2 & H3).
  - vm_compute. reflexivity.
  - lia.
  - exists 65536, 69632. vm_compute. repeat split; try discriminate. now left.
  - vm_compute. reflexivity.
  - vm_compute. discriminate.
  - vm_compute. split; discriminate.
  - vm_compute. reflexivity.
  - vm_compute. discriminate.
  - exists st4. split; [vm_compute; reflexivity|]. split; [vm_compute; reflexivity|].
    split; [exact H1|]. split; [rewrite H2; vm_compute; reflexivity|].
    split; [vm_compute; reflexivity|]. rewrite H3. vm_compute. reflexivity.
Defined.

(** ** Routing of a request, end to end *)

(** C6: a request of 0 bytes is a request of the 8-byte class, treated like
    a request of 8 bytes in every state; a request of 1..1024 bytes goes to
    the smallest class that holds it (the smallest power of two that is at
    least [n] and at least 8, at table index 0..7) and is treated like a
    request of exactly that size; a request above 1024 bytes is the call of
    [BigAlloc::alloc] and leaves the table of arenas alone.  What the
    dispatcher then does with the class: with a null entry and a kernel that
    maps at [r], a request of 0..1024 bytes is served (not refused) from a
    new arena at [r], stored at the index of its class and nowhere else, with
    the class size as item size; with a current arena that has room, it is
    served from the arena at the index of its class with no new mapping; and
    a request above 1024 bytes is served from a Region of its own whose
    header records item size 0, while the table stays as it is. *)
Theorem dispatch_routes (n : Z) (st : state) :
  (n = 0 -> classify n = (8, 0) /\ myMalloc n st = myMalloc 8 st)
  /\ (1 <= n <= 1024 ->
      0 <= snd (classify n) <= 7
      /\ fst (classify n) = class_size (snd (classify n))
      /\ n <= fst (classify n)
      /\ (forall j, 0 <= j -> 8 <= 2 ^ j -> n <= 2 ^ j -> fst (classify n) <= 2 ^ j)
      /\ myMalloc n st = myMalloc (fst (classify n)) st)
  /\ (1024 < n ->
      myMalloc n st = BigAlloc_alloc n st
      /\ m_arenas (final_state (myMalloc n st)) = m_arenas st)
  /\ (0 <= n <= 1024 ->
      forall r rest,
        m_arenas st !! Z.to_nat (snd (classify n)) = Some nullptr ->
        os_next st = r :: rest ->
        placement_ok (vmas st) r pageSize = true ->
        exists st',
          myMalloc n st = Ret (r + Layout.Arena_m_data + fst (classify n)) st'
          /\ r + Layout.Arena_m_data + fst (classify n) <> nullptr
          /\ m_arenas st' = <[Z.to_nat (snd (classify n)) := r]> (m_arenas st)
          /\ arenaSize r st' = Ret (fst (classify n)) st'
          /\ mmapSize r st' = Ret pageSize st'
          /\ vmas st' = (r, r + pageSize) :: vmas st)
  /\ (n <= 1024 ->
      forall this,
        m_arenas st !! Z.to_nat (snd (classify n)) = Some this ->
        this <> nullptr ->
        object_mapped st this Layout.sizeof_Arena ->
        v_arenaSize (arena_at st this) <= v_size_remain (arena_at st this) ->
        0 <= v_item_count (arena_at st this) < 2 ^ 31 - 1 ->
        wrap64 (v_m_next (arena_at st this) + v_arenaSize (arena_at st this))
        <> nullptr ->
        exists st',
          myMalloc n st
          = Ret (wrap64 (v_m_next (arena_at st this) + v_arenaSize (arena_at st this)))
                st'
          /\ v_item_count (arena_at st' this) = v_item_count (arena_at st this) + 1
          /\ m_arenas st' = m_arenas st /\ vmas st' = vmas st
          /\ os_next st' = os_next st)
  /\ (1024 < n < 2 ^ 64 ->
      forall r rest,
        os_next st = r :: rest ->
        placement_ok (vmas st) r (page_align n) = true ->
        exists st',
          myMalloc n st = Ret (r + Layout.sizeof_BigAlloc) st'
          /\ r + Layout.sizeof_BigAlloc <> nullptr
          /\ arenaSize r st' = Ret 0 st'
          /\ mmapSize r st' = Ret n st'
          /\ m_arenas st' = m_arenas st
          /\ vmas st' = (r, r + page_align n) :: vmas st).
Proof.
  split; [|split; [|split; [|split; [|split]]]].
  - intros ->. split; reflexivity.
  - intros Hn. pose proof (class_ok_small n ltac:(lia)) as H. unfold class_ok in H.
    pose proof (myMalloc_class n st ltac:(lia)) as Hsame.
    destruct (classify n) as [c idx]. cbn [fst snd] in *.
    repeat (apply andb_prop in H; destruct H as [H ?]).
    assert (Hc : c = class_size idx) by lia.
    repeat split; try lia; [|exact Hsame].
    intros j Hj H8 Hle. rewrite Hc. apply (class_size_minimal idx n j); try lia.
    rewrite <- Hc. lia.
  - intros Hn. unfold myMalloc, ArenaStore_alloc.
    replace (n >? 1024) with true by lia.
    split; [reflexivity | apply keeps_BigAlloc_alloc].
  - intros Hn r rest Hcur Hos Hok.
    destruct (placement_ok_inv _ _ _ Hok) as (_ & _ & Hmin & _).
    pose proof (classify_class_range n Hn) as [Hc _].
    destruct (myMalloc_fresh_spec st n r rest Hn Hcur Hos Hok)
      as (st' & Hrun & Htab & Hm & Hat & Hsz & Hv & _).
    exists st'. split; [exact Hrun|].
    split; [unfold nullptr, mmap_min_addr, pageSize, Layout.Arena_m_data in *; lia|].
    split; [exact Htab|]. split; [|split; [|exact Hv]].
    + unfold arenaSize.
      rewrite (load_size_t_ok st' r Layout.sizeof_Arena)
        by (auto; unfold Layout.m_arenaSize, Layout.sizeof_Arena; lia).
      f_equal. change (v_arenaSize (arena_at st' r) = fst (classify n)).
      now rewrite Hat.
    + unfold mmapSize.
      rewrite (load_size_t_ok st' r Layout.sizeof_Arena)
        by (auto; unfold Layout.m_mmapSize, Layout.sizeof_Arena; lia).
      now rewrite Hsz.
  - intros Hn this Hcur Hnn Hm Hroom Hc Hres.
    destruct (myMalloc_current_spec st n this Hn Hcur Hnn Hm Hroom ltac:(lia) Hres)
      as (st' & Hrun & Hat & Ht & Hv & Hos & _).
    exists st'. split; [exact Hrun|]. split; [now rewrite Hat|].
    repeat split; assumption.
  - intros Hn r rest Hos Hok.
    destruct (placement_ok_inv _ _ _ Hok) as (Hlen & _ & Hmin & Hmax).
    destruct (page_align_covers n Hlen) as [Hpage _].
    unfold mmap_min_addr, TASK_SIZE, pageSize in Hmin, Hmax, Hpage.
    destruct (MMapObject_alloc_spec st n 0 r rest Hos Hok)
      as (st' & Hrun & Hv & _ & Ht & _ & Hsz & Hasz & _).
    assert (Hm : object_mapped st' r Layout.sizeof_MMapObject).
    { exists r, (r + page_align n). rewrite Hv.
      unfold Layout.sizeof_MMapObject, mmap_min_addr, TASK_SIZE, pageSize.
      repeat split; [now left|lia..]. }
    exists st'. split.
    { unfold myMalloc, ArenaStore_alloc. replace (n >? 1024) with true by lia.
      unfold BigAlloc_alloc, bind. rewrite Hrun.
      replace (r =? nullptr) with false by (unfold nullptr; lia).
      change (false || negb (Layout.sizeof_BigAlloc mod 8 =? 0)) with false. cbv iota.
      unfold ret. now rewrite wrap64_small by (unfold Layout.BigAlloc_m_data; lia). }
    split; [unfold nullptr, Layout.sizeof_BigAlloc; lia|].
    unfold arenaSize, mmapSize.
    rewrite !(load_size_t_ok st' r Layout.sizeof_MMapObject)
      by (auto; unfold Layout.m_mmapSize, Layout.m_arenaSize, Layout.sizeof_MMapObject; lia).
    rewrite Hsz, Hasz, (wrap64_small n) by lia.
    repeat split; assumption.
Qed.

Lemma dispatch_routes_witness :
  (0 = 0 /\ classify 0 = (8, 0)
   /\ myMalloc 0 (initial [65536]) = myMalloc 8 (initial [65536]))
  /\ (1 <= 600 <= 1024 /\ fst (classify 600) = 1024 /\ snd (classify 600) = 7
      /\ myMalloc 600 (initial [65536]) = myMalloc 1024 (initial [65536]))
  /\ (1024 < 1025
      /\ myMalloc 1025 (initial [65536]) = BigAlloc_alloc 1025 (initial [65536]))
  /\ (exists st',
        myMalloc 0 (initial [65536]) = Ret 65584 st'
        /\ m_arenas st' = [65536; 0; 0; 0; 0; 0; 0; 0; 0]
        /\ arenaSize 65536 st' = Ret 8 st')
  /\ (exists st',
        myMalloc 600 (initial [65536]) = Ret 66600 st'
        /\ m_arenas st' = [0; 0; 0; 0; 0; 0; 0; 65536; 0]
        /\ arenaSize 65536 st' = Ret 1024 st')
  /\ (exists st',
        myMalloc 600 after_three_1024 = Ret 69672 st'
        /\ m_arenas st' = m_arenas after_three_1024
        /\ vmas st' = vmas after_three_1024)
  /\ (exists st',
        myMalloc 1025 (initial [65536]) = Ret 65552 st'
        /\ arenaSize 65536 st' = Ret 0 st'
        /\ mmapSize 65536 st' = Ret 1025 st'
        /\ m_arenas st' = [0; 0; 0; 0; 0; 0; 0; 0; 0]).
Proof.
  split; [|split; [|split; [|split; [|split; [|split]]]]].
  - destruct (dispatch_routes 0 (initial [65536])) as [H _].
    split; [reflexivity | apply H; reflexivity].
  - destruct (dispatch_routes 600 (initial [65536])) as (_ & H & _).
    split; [lia|]. destruct (H ltac:(lia)) as (_ & _ & _ & _ & Hsame).
    split; [reflexivity|]. split; [reflexivity | exact Hsame].
  - destruct (dispatch_routes 1025 (initial [65536])) as (_ & _ & H & _).
    split; [lia | apply H; lia].
  - destruct (dispatch_routes 0 (initial [65536])) as (_ & _ & _ & H & _).
    destruct (H ltac:(lia) 65536 []) as (st' & H1 & _ & H3 & H4 & _);
      [reflexivity | reflexivity | reflexivity |].
    exists st'. split; [exact H1|]. split; [exact H3 | exact H4].
  - destruct (dispatch_routes 600 (initial [65536])) as (_ & _ & _ & H & _).
    destruct (H ltac:(lia) 65536 []) as (st' & H1 & _ & H3 & H4 & _);
      [reflexivity | reflexivity | reflexivity |].
    exists st'. split; [exact H1|]. split; [exact H3 | exact H4].
  - destruct (dispatch_routes 600 after_three_1024) as (_ & _ & _ & _ & H & _).
    destruct (H ltac:(lia) 65536) as (st' & H1 & _ & H3 & H4 & _).
    + vm_compute. reflexivity.
    + discriminate.
    + exists 65536, 69632. vm_compute. repeat split; try discriminate. now left.
    + vm_compute. discriminate.
    + vm_compute. split; [discriminate | reflexivity].
    + vm_compute. discriminate.
    + exists st'. split; [|split; assumption].
      rewrite H1. vm_compute. reflexivity.
  - destruct (dispatch_routes 1025 (initial [65536])) as (_ & _ & _ & _ & _ & H).
    destruct (H ltac:(lia) 65536 []) as (st' & H1 & _ & H3 & H4 & H5 & _);
      [reflexivity | reflexivity |].
    exists st'. split; [exact H1|]. split; [exact H3|]. split; [exact H4 | exact H5].
Defined.
